(** * wakatime-cli: backoff gate, command supervisor, offline fallback

    A shallow embedding of five Go packages of the repository

      - [pkg/config]   (config.go: NewIniWriter, IniWriter.Write, FilePath,
                        InternalFilePath, WakaHomeDir, ReadInConfig)
      - [pkg/backoff]  (WithBackoff, shouldBackoff, updateBackoffSettings)
      - [cmd/legacy]   (Run, SetupLogging, RunCmd, RunCmdWithOfflineSync,
                        runCmd, sendDiagnostics, captureLogs)
      - [cmd/legacy/offline] (SaveHeartbeats, loadParams, buildHeartbeats, ...)
      - [pkg/filestats] (WithDetection, countLineNumbers)

    Go code with side effects is written in explicit state-passing style over
    a [World]: the wall clock, the ini files on disk, the logger of [pkg/log]
    with its sinks, the offline queue.  Go's [(value, error)] results are
    pairs with an [option error], or a [result] where the value is never
    looked at on failure. *)

From stdpp Require Import base strings gmap list pretty.
From Stdlib Require Import ZArith Lia.

Open Scope string_scope.
Open Scope list_scope.
Open Scope Z_scope.

(** ** Go base types *)

Module Go.

(** An [error] value is represented by its message; [nil] is [None]. *)
Definition error := string.

Inductive result (A : Type) : Type :=
| Ok (a : A)
| Err (e : error).
Arguments Ok {A} a.
Arguments Err {A} e.

(** [int] and [int64] are 64 bits wide; arithmetic wraps around in two's
    complement. *)
Definition min_int64 : Z := - 2 ^ 63.
Definition max_int64 : Z := 2 ^ 63 - 1.

Definition wrap64 (x : Z) : Z := (x + 2 ^ 63) mod 2 ^ 64 - 2 ^ 63.

Definition in_int64 (x : Z) : Prop := min_int64 <= x <= max_int64.

Definition int_add (a b : Z) : Z := wrap64 (a + b).
Definition int_mul (a b : Z) : Z := wrap64 (a * b).

(** [strconv.Itoa]: the decimal numeral, with a minus sign when negative. *)
Definition Itoa (n : Z) : string := pretty n.

(** The verb [%s] of package [fmt] applied to an [int]. *)
Definition fmt_s_int (n : Z) : string := "%!s(int=" +:+ Itoa n +:+ ")".

(** The verb [%s] applied to an [error] that may be nil. *)
Definition fmt_s_error (e : option error) : string :=
  match e with
  | Some m => m
  | None => "%!s(<nil>)"
  end.

(** The conversion of a non-negative, integral [float64] to [int64].  The
    result is the integer itself when it fits; otherwise the Go specification
    leaves the value to the implementation, and [oor] stands for it. *)
Definition float64_to_int64 (oor : Z) (x : Z) : Z :=
  if x <=? max_int64 then x else oor.

End Go.
Export Go.

(** ** Package time

    An instant is the number of nanoseconds since January 1, year 1,
    00:00:00 UTC, so that the zero [Time] is [0].  A [Duration] is an
    [int64] count of nanoseconds.  Instants here come from the wall clock or
    from a parsed RFC 3339 text, far away from the range where [Time.Add]
    saturates, so [Add] is plain addition. *)

Module time.

Definition Time := Z.
Definition Duration := Z.

Definition Nanosecond : Duration := 1.
Definition Second : Duration := 1000000000.

Definition IsZero (t : Time) : bool := t =? 0.
Definition Add (t : Time) (d : Duration) : Time := t + d.
Definition Before (t u : Time) : bool := t <? u.

(** Layouts of [Time.Format] used by the program. *)
Definition Stamp : string := "Jan _2 15:04:05".
Definition RFC3339 : string := "2006-01-02T15:04:05Z07:00".

End time.

(** ** Data shared by the packages *)

(** An ini file: section name to key to value. *)
Abbreviation IniFile := (gmap string (gmap string string)).

(** ** Package heartbeat: the data *)

Module heartbeat.

(** A [float64] on which no arithmetic is done here, kept as mantissa and
    exponent. *)
Record float64 := mkFloat { f_mantissa : Z; f_exponent : Z }.

(** Modelled from the spec: the struct [heartbeat.Heartbeat] is declared in
    package [heartbeat], which is not among the sources.  Its fields are the
    fourteen arguments [buildHeartbeats] passes to [heartbeat.New], and
    [Lines], which the file statistics stage fills in ("total lines in file
    (optional int, populated by a detector)"). *)
Record Heartbeat := mkHeartbeat {
  Category : string;
  CursorPosition : option Z;
  Entity : string;
  EntityType : string;
  IsWrite : option bool;
  Language : option string;
  LanguageAlternate : string;
  LineNumber : option Z;
  LocalFile : string;
  ProjectAlternate : string;
  ProjectOverride : string;
  ProjectPathOverride : string;
  Time : float64;
  UserAgent : string;
  Lines : option Z
}.

(** Modelled from the spec: [heartbeat.Result] is not among the sources; it
    is "a status classification (accepted | rejected | error) plus optional
    diagnostic text". *)
Inductive Status := accepted | rejected | errored.

Record Result := mkResult { status : Status; text : option string }.

End heartbeat.

Abbreviation Heartbeat := heartbeat.Heartbeat.
Abbreviation Result := heartbeat.Result.
Abbreviation float64 := heartbeat.float64.

(** ** Package log and the world *)

(** Modelled from the spec: package [pkg/log] is not among the sources.  The
    logger is a process-wide object with one output writer ([log.Output],
    [log.SetOutput]), a verbosity switch ([log.SetVerbose]: debug lines are
    dropped unless it is on) and a set of fields ([log.WithField]). *)
Inductive Level := DebugLevel | WarnLevel | ErrorLevel.

(** A writer is a sink (a file, the standard output, a [bytes.Buffer]),
    named by its index in the world's list of sinks, or an [io.MultiWriter]
    over sinks, which duplicates every write ("redirects the structured log
    stream into a dual sink -- the normal destination plus an in-memory
    buffer"). *)
Inductive Writer :=
| WSink (n : nat)
| WMulti (ns : list nat).

Inductive FieldValue :=
| FString (s : string)
| FFloat (x : float64)
| FInt (n : Z)
| FBool (b : bool).

Definition LogLine : Type := Level * string.

(** The part of the machine the program reads and writes. *)
Record World := mkWorld {
  (** the wall clock, as [time.Now] reads it *)
  clock : time.Time;
  (** what [ini.LoadSources] gives at a path *)
  load : string → result IniFile;
  (** the error [File.SaveTo] would meet at a path, if any *)
  save_error : string → option error;
  (** the logger *)
  log_verbose : bool;
  log_output : Writer;
  log_fields : list (string * FieldValue);
  (** what was written to each sink *)
  sinks : list (list LogLine);
  (** the call stack, as [debug.Stack] renders it *)
  stack : string;
  (** the offline queue files, by path *)
  queue : gmap string (list Heartbeat)
}.

Definition set_clock (t : time.Time) (w : World) : World :=
  mkWorld t (load w) (save_error w) (log_verbose w) (log_output w)
          (log_fields w) (sinks w) (stack w) (queue w).

Definition set_queue (q : gmap string (list Heartbeat)) (w : World) : World :=
  mkWorld (clock w) (load w) (save_error w) (log_verbose w) (log_output w)
          (log_fields w) (sinks w) (stack w) q.

Definition set_load (f : string → result IniFile) (w : World) : World :=
  mkWorld (clock w) f (save_error w) (log_verbose w) (log_output w)
          (log_fields w) (sinks w) (stack w) (queue w).

Definition set_log_output (o : Writer) (w : World) : World :=
  mkWorld (clock w) (load w) (save_error w) (log_verbose w) o
          (log_fields w) (sinks w) (stack w) (queue w).

Definition set_log_fields (fs : list (string * FieldValue)) (w : World) : World :=
  mkWorld (clock w) (load w) (save_error w) (log_verbose w) (log_output w)
          fs (sinks w) (stack w) (queue w).

Definition set_sinks (s : list (list LogLine)) (w : World) : World :=
  mkWorld (clock w) (load w) (save_error w) (log_verbose w) (log_output w)
          (log_fields w) s (stack w) (queue w).

Module log.

Definition targets (o : Writer) : list nat :=
  match o with
  | WSink n => [n]
  | WMulti ns => ns
  end.

(** [io.MultiWriter(a, b)]; nested multi-writers are flattened, as the
    library does. *)
Definition MultiWriter (a b : Writer) : Writer := WMulti (targets a ++ targets b).

Definition write_sink (line : LogLine) (s : list (list LogLine)) (n : nat)
  : list (list LogLine) :=
  alter (λ b, b ++ [line]) n s.

Definition enabled (l : Level) (w : World) : bool :=
  match l with
  | DebugLevel => log_verbose w
  | _ => true
  end.

(** Modelled from the spec: a log call writes its line to every sink of the
    current output, unless its level is switched off.  Writes to a sink do
    not fail. *)
Definition emit (l : Level) (msg : string) (w : World) : World :=
  if enabled l w
  then set_sinks (foldl (write_sink (l, msg)) (sinks w) (targets (log_output w))) w
  else w.

Definition Debugf := emit DebugLevel.
Definition Debugln := emit DebugLevel.
Definition Warnf := emit WarnLevel.
Definition Errorf := emit ErrorLevel.

Definition Output (w : World) : Writer := log_output w.
Definition SetOutput (o : Writer) (w : World) : World := set_log_output o w.

Definition WithField (k : string) (x : FieldValue) (w : World) : World :=
  set_log_fields (log_fields w ++ [(k, x)]) w.

(** [bytes.NewBuffer(nil)]: a fresh, empty sink. *)
Definition NewBuffer (w : World) : Writer * World :=
  (WSink (length (sinks w)), set_sinks (sinks w ++ [[]]) w).

(** [Buffer.String]: everything written to the sink so far. *)
Definition contents (o : Writer) (w : World) : list LogLine :=
  match o with
  | WSink n => default [] (sinks w !! n)
  | WMulti _ => []
  end.

End log.

(** ** Package heartbeat, continued: the handler chain *)

Module chain.

(** A [Handle] maps a batch of heartbeats to results or an error; a
    [HandleOption] wraps the next handle. *)
Definition Handle : Type :=
  list Heartbeat → World → (list Result * option error) * World.

Definition HandleOption : Type := Handle → Handle.

(** Modelled from the spec: [heartbeat.NewHandle] is not among the sources;
    "the chain is built by folding a terminal Handle through an ordered list
    of HandleOptions", the first option outermost. *)
Definition NewHandle (send : Handle) (opts : list HandleOption) : Handle :=
  foldr (λ (opt : HandleOption) (h : Handle), opt h) send opts.

End chain.

(** ** Package config (src/pkg/config/config.go) *)

Module config.

Definition defaultFile : string := ".wakatime.cfg".
Definition DateFormat : string := time.RFC3339.

Definition is_empty (s : string) : bool := String.eqb s "".

(** The operating system and the libraries [FilePath] relies on
    ([vipertools], [go-homedir], [os], [os/user], [path/filepath]), none of
    which is among the sources. *)
Record Os (Viper : Type) := mkOs {
  vipertools_GetString : Viper → string → string;
  homedir_Expand : string → result string;
  os_LookupEnv : string → option string;
  os_UserHomeDir : string * option error;
  (** [u.HomeDir] for [u, err := user.LookupId(strconv.Itoa(os.Getuid()))] *)
  user_LookupId_HomeDir : result string;
  filepath_Join : string → string → string
}.
Arguments vipertools_GetString {Viper} _ _ _.
Arguments homedir_Expand {Viper} _ _.
Arguments os_LookupEnv {Viper} _ _.
Arguments os_UserHomeDir {Viper} _.
Arguments user_LookupId_HomeDir {Viper} _.
Arguments filepath_Join {Viper} _ _ _.

(** [IniWriter]: [File] is a pointer and may be nil. *)
Record IniWriter := mkIniWriter {
  File : option IniFile;
  ConfigFilepath : string
}.

(** [File.Section(section).Key(key).SetValue(value)]; the section and the key
    are created when they are missing.  The ini library has no key with an
    empty name: [Key] then returns nil and [SetValue] panics, a case this
    definition leaves out; the keys the program writes ([backoff_retries],
    [backoff_at]) are not empty. *)
Definition SetValue (section key value : string) (f : IniFile) : IniFile :=
  <[section := <[key := value]> (default ∅ (f !! section))]> f.

(** [File.SaveTo(path)] when it succeeds: a later load at [path] gives [f].
    This holds of the values the program writes (digits, a date in RFC 3339,
    the empty string); the ini library does not read every value back as it
    was written (surrounding quotes are dropped), so nothing is stated
    below about the other keys of a file that was saved. *)
Definition SaveTo (f : IniFile) (path : string) (w : World) : World :=
  set_load (λ p, if String.eqb p path then Ok f else load w p) w.

(** Reading a key back: from a file, and from the file on disk at a
    path. *)
Definition Value (f : IniFile) (section key : string) : option string :=
  s ← f !! section; s !! key.

Definition stored (w : World) (path section key : string) : option string :=
  match load w path with
  | Ok f => Value f section key
  | Err _ => None
  end.

Section Config.
Context {Viper : Type} (sys : Os Viper).

(** [WakaHomeDir] *)
Definition WakaHomeDir : result string :=
  let fallback :=
    let '(home, err) := os_UserHomeDir sys in
    if bool_decide (err = None) && negb (is_empty home) then Ok home
    else
      let allerrs := err in
      match user_LookupId_HomeDir sys with
      | Ok uhome =>
          if negb (is_empty uhome) then Ok uhome
          else Err (fmt_s_error allerrs +:+ ": " +:+ fmt_s_error None)
      | Err err' => Err (fmt_s_error allerrs +:+ ": " +:+ fmt_s_error (Some err'))
      end in
  match os_LookupEnv sys "WAKATIME_HOME" with
  | Some home =>
      if negb (is_empty home) then
        match homedir_Expand sys home with
        | Ok home' => Ok home'
        | Err _ => fallback
        end
      else fallback
  | None => fallback
  end.

(** [FilePath] returns the path for the wakatime config file. *)
Definition FilePath (v : Viper) : result string :=
  let configFilepath := vipertools_GetString sys v "config" in
  if negb (is_empty configFilepath) then
    match homedir_Expand sys configFilepath with
    | Err err => Err ("failed parsing --config param: " +:+ err)
    | Ok p => Ok p
    end
  else
    match WakaHomeDir with
    | Err err => Err ("failed getting user's home directory: " +:+ err)
    | Ok home => Ok (filepath_Join sys home defaultFile)
    end.


(** [NewIniWriter] *)
Definition NewIniWriter (v : Viper) (filepathFn : Viper → result string)
    (w : World) : result IniWriter :=
  match filepathFn v with
  | Err err => Err ("error getting filepath: " +:+ err)
  | Ok configFilepath =>
      match load w configFilepath with
      | Err err => Err ("error loading config file: " +:+ err)
      | Ok ini => Ok (mkIniWriter (Some ini) configFilepath)
      end
  end.

End Config.

(** [IniWriter.Write].  When [SaveTo] fails the world is returned as it
    was: what a failed save leaves at the path is not modelled, and nothing
    is stated below about the file at the writer's path after a failure. *)
Definition Write (iw : IniWriter) (section : string)
    (keyValue : gmap string string) (w : World) : option error * World :=
  match File iw with
  | None => (Some "got undefined wakatime config file instance", w)
  | Some f =>
      if is_empty (ConfigFilepath iw)
      then (Some "got undefined wakatime config file instance", w)
      else
        let f' := map_fold (λ key value, SetValue section key value) f keyValue in
        match save_error w (ConfigFilepath iw) with
        | Some err => (Some ("error saving wakatime config: " +:+ err), w)
        | None => (None, SaveTo f' (ConfigFilepath iw) w)
        end
  end.

End config.

(** ** Package backoff (src/pkg/backoff/backoff.go, first part) *)

Module backoff.

Import time chain.

(** [resetAfter] sets the total seconds a backoff will last. *)
Definition resetAfter : Z := 3600.
(** [factor] is the total seconds to be multiplied by. *)
Definition factor : Z := 15.

Record Config (Viper : Type) := mkConfig {
  (** the time when the first failure happened *)
  At : Time;
  (** the number of attempts to connect *)
  Retries : Z;
  V : Viper
}.
Arguments mkConfig {Viper} _ _ _.
Arguments At {Viper} _.
Arguments Retries {Viper} _.
Arguments V {Viper} _.

Definition errBackoff : error := "won't send heartbeat due to backoff".

Section Backoff.
Context {Viper : Type} (sys : config.Os Viper).
(** [Time.Format] with a layout, which depends on the time zone database. *)
Variable Format : string → Time → string.
(** What the platform gives when a [float64] too large for [int64] is
    converted. *)
Variable oor : Z.

(** The [Duration] computed in [shouldBackoff]:
    [time.Duration(float64(factor)*math.Pow(2, float64(retries))) * time.Second].
    For [retries >= 1] the product [15 * 2^retries] is computed exactly in
    [float64] as long as it is finite, and is converted exactly when it fits
    [int64]; otherwise (too large, or infinite) the conversion gives [oor].
    The multiplication by [time.Second] is an [int64] multiplication. *)
Definition backoffDuration (retries : Z) : Duration :=
  int_mul (float64_to_int64 oor (factor * 2 ^ retries)) Second.

(** [shouldBackoff] *)
Definition shouldBackoff (retries : Z) (at_ : Time) (w : World) : bool * World :=
  if (retries <? 1) || IsZero at_ then (false, w)
  else
    let now := clock w in
    let duration := backoffDuration retries in
    let w := log.Debugf
      ("exponential backoff tried " +:+ fmt_s_int retries +:+ " times since "
       +:+ Format Stamp at_ +:+ ", will retry at "
       +:+ Format Stamp (Add at_ duration)) w in
    (Before now (Add at_ duration) && Before now (Add at_ (resetAfter * Second)), w).

(** [updateBackoffSettings] *)
Definition updateBackoffSettings (v : Viper) (retries : Z) (at_ : Time)
    (w : World) : option error * World :=
  match config.NewIniWriter v (config.FilePath sys) w with
  | Err err => (Some ("failed to parse config file: " +:+ err), w)
  | Ok iw =>
      let keyValue : gmap string string :=
        {[ "backoff_retries" := Itoa retries; "backoff_at" := "" ]} in
      let keyValue :=
        if negb (IsZero at_)
        then <["backoff_at" := Format config.DateFormat at_]> keyValue
        else keyValue in
      match config.Write iw "internal" keyValue w with
      | (Some err, w) => (Some ("failed to write to config file: " +:+ err), w)
      | (None, w) => (None, w)
      end
  end.

(** [WithBackoff] *)
Definition WithBackoff (cfg : Config Viper) : HandleOption :=
  λ next hh w,
    let w := log.Debugln "execute heartbeat backoff algorithm" w in
    let '(blocked, w) := shouldBackoff (Retries cfg) (At cfg) w in
    if blocked then (([], Some errBackoff), w)
    else
      let '((results, err), w) := next hh w in
      match err with
      | Some e =>
          let w := log.Debugf "incrementing backoff due to error" w in
          (* error response, increment backoff *)
          let '(updateErr, w) :=
            updateBackoffSettings (V cfg) (int_add (Retries cfg) 1) (clock w) w in
          let w :=
            match updateErr with
            | Some ue => log.Warnf ("failed to update backoff settings: " +:+ ue) w
            | None => w
            end in
          (([], Some e), w)
      | None =>
          let w :=
            if negb (IsZero (At cfg)) then
              (* success response, reset backoff *)
              let '(resetErr, w) := updateBackoffSettings (V cfg) 0 0 w in
              match resetErr with
              | Some re => log.Warnf ("failed to reset backoff settings: " +:+ re) w
              | None => w
              end
            else w in
          ((results, None), w)
      end.

(** Whether [updateBackoffSettings] is bound to fail in world [w]: the config
    path cannot be found, the file cannot be loaded, or it cannot be
    saved. *)
Definition persist_fails (v : Viper) (w : World) : bool :=
  match config.FilePath sys v with
  | Err _ => true
  | Ok path =>
      match load w path with
      | Err _ => true
      | Ok _ =>
          config.is_empty path
          || match save_error w path with Some _ => true | None => false end
      end
  end.

(** Whether the gate of [WithBackoff] blocks in world [w], and the world in
    which it calls the next handle when it does not. *)
Definition blocks (cfg : Config Viper) (w : World) : bool :=
  fst (shouldBackoff (Retries cfg) (At cfg)
         (log.Debugln "execute heartbeat backoff algorithm" w)).

Definition gate_entry (cfg : Config Viper) (w : World) : World :=
  snd (shouldBackoff (Retries cfg) (At cfg)
         (log.Debugln "execute heartbeat backoff algorithm" w)).

End Backoff.

End backoff.

(** ** Package legacy (src/pkg/backoff/backoff.go, second part): the command
    supervisor *)

Module legacy.

(** The exit codes of package [exitcode], which is not among the sources. *)
Record ExitCodes := mkExitCodes {
  Success : Z;
  ErrGeneric : Z;
  ErrAuth : Z;
  ErrConfigFileParse : Z
}.

(** How a call of a command function ends: it returns [(exitCode, err)], or
    it panics.  [Panicked value] is a panic with a value that is not nil,
    which [recover] reports.  [PanickedNil] is [panic(nil)]: [recover]
    stops the panic and returns nil (Go before 1.21, and later for a module
    that declares an older language version), so the test of the deferred
    function in [runCmd] fails and [runCmd] returns the zero value of its
    result. *)
Inductive Completion :=
| Returned (exitCode : Z) (err : option error)
| Panicked (value : string)
| PanickedNil.

(** [cmdFn] represents a command function; [cmd_name] is the name of the Go
    function, used only to tell in [events] which command was invoked. *)
Record cmdFn (Viper : Type) := mkCmd {
  cmd_name : string;
  cmd_run : Viper → World → Completion * World
}.
Arguments mkCmd {Viper} _ _.
Arguments cmd_name {Viper} _.
Arguments cmd_run {Viper} _ _ _.

(** What the supervisor did, recorded next to the world: the commands it
    invoked and the calls of [sendDiagnostics] with their arguments.  A
    command function only sees the world. *)
Inductive Event :=
| Invoked (name : string)
| Diagnostics (logs : list LogLine) (stack : string).

Record Process := mkProcess {
  world : World;
  events : list Event
}.

Definition with_world (f : World → World) (p : Process) : Process :=
  mkProcess (f (world p)) (events p).

Definition record (e : Event) (p : Process) : Process :=
  mkProcess (world p) (events p ++ [e]).

(** A function either returns to its caller or ends the process with
    [os.Exit]. *)
Inductive Control (A : Type) :=
| Return (a : A)
| Exit (code : Z).
Arguments Return {A} a.
Arguments Exit {A} code.

Inductive Diagnostic :=
| Logs (logs : list LogLine)
| Stack (stack : string).

(** The collaborators of [sendDiagnostics] ([legacyparams], [legacyapi],
    [api]), none of which is among the sources. *)
Record Api (Viper : Type) := mkApi {
  Client : Type;
  APIParams : Type;
  Plugin : APIParams → string;
  (** [params.API] for [params, err := legacyparams.Load(v, true)] *)
  legacyparams_Load : Viper → bool → result APIParams;
  NewClientWithoutAuth : APIParams → result Client;
  WithDisableSSLVerify : Client → Client;
  SendDiagnostics : Client → string → list Diagnostic → World → option error * World
}.
Arguments Client {Viper} _.
Arguments APIParams {Viper} _.
Arguments Plugin {Viper} _ _.
Arguments legacyparams_Load {Viper} _ _ _.
Arguments NewClientWithoutAuth {Viper} _ _.
Arguments WithDisableSSLVerify {Viper} _ _.
Arguments SendDiagnostics {Viper} _ _ _ _ _.

(** [captureLogs]; the closure it returns is the function of the world. *)
Definition captureLogs (dest : Writer) (w : World) : (World → World) * World :=
  let logOutput := log.Output w in
  (* will write to log output and dest *)
  let mw := log.MultiWriter logOutput dest in
  let w := log.SetOutput mw w in
  (λ w, log.SetOutput logOutput w, w).

(** [debug.Stack] *)
Definition debug_Stack (w : World) : string := stack w.

(** The buffer [runCmd] allocates in world [w], and the world in which it
    then runs the command: the buffer exists and the log output is
    duplicated into it. *)
Definition buffer (w : World) : Writer := fst (log.NewBuffer w).

Definition capture (w : World) : World :=
  snd (captureLogs (buffer w) (snd (log.NewBuffer w))).

(** The commands invoked and the diagnostics sent, in order. *)
Definition invoked (p : Process) : list string :=
  omap (λ e, match e with Invoked n => Some n | _ => None end) (events p).

Definition sent (p : Process) : list (list LogLine * string) :=
  omap (λ e, match e with Diagnostics l s => Some (l, s) | _ => None end)
       (events p).

(** The rule for a command that returns an error, as the specification
    words it: diagnostics are uploaded unless the exit code is the
    authentication error code and verbose mode is active. *)
Definition spec_uploads_on_error (ErrAuth exitCode : Z) (verbose : bool) : bool :=
  negb ((exitCode =? ErrAuth) && verbose).

Section Supervisor.
Context {Viper : Type} (code : ExitCodes) (api : Api Viper).
(** [offlinesync.Run], which is not among the sources. *)
Variable offlinesync_Run : cmdFn Viper.

(** [sendDiagnostics] *)
Definition sendDiagnostics (v : Viper) (logs : list LogLine) (stack : string)
    (p : Process) : Process :=
  let p := record (Diagnostics logs stack) p in
  match legacyparams_Load api v true with
  | Err err =>
      with_world
        (log.Errorf ("failed to load parameters for sending diagnostics: " +:+ err)) p
  | Ok params =>
      match NewClientWithoutAuth api params with
      | Err err =>
          with_world
            (log.Errorf
               ("failed to initialize api client for sending diagnostics: " +:+ err)) p
      | Ok c =>
          let diagnostics := [Logs logs; Stack stack] in
          let c := WithDisableSSLVerify api c in
          let '(err, w) := SendDiagnostics api c (Plugin api params) diagnostics (world p) in
          let w :=
            match err with
            | Some e => log.Errorf ("failed to send diagnostics: " +:+ e) w
            | None => log.Debugln "successfully sent diagnostics" w
            end in
          mkProcess w (events p)
      end
  end.

(** The function deferred in [runCmd] ("catch panics"), given what
    [recover] returns: it ends the process, or does nothing. *)
Definition catchPanics (v : Viper) (verbose : bool) (logs : Writer)
    (resetLogs : World → World) (recovered : option string) (p : Process)
  : option Z * Process :=
  match recovered with
  | Some err =>
      let p := with_world resetLogs p in
      let p :=
        if negb verbose
        then sendDiagnostics v (log.contents logs (world p)) (debug_Stack (world p)) p
        else p in
      (Some (ErrGeneric code), p)
  | None => (None, p)
  end.

(** [runCmd] contains the main logic of [RunCmd]. *)
Definition runCmd (v : Viper) (verbose : bool) (cmd : cmdFn Viper) (p : Process)
  : Control Z * Process :=
  let '(logs, w) := log.NewBuffer (world p) in
  let '(resetLogs, w) := captureLogs logs w in
  (* run command *)
  let p := record (Invoked (cmd_name cmd)) (mkProcess w (events p)) in
  let '(completion, w) := cmd_run cmd v (world p) in
  let p := mkProcess w (events p) in
  match completion with
  | Panicked value =>
      match catchPanics v verbose logs resetLogs (Some value) p with
      | (Some c, p) => (Exit c, p)
      | (None, p) =>
          (* a recovered panic: the zero exit code is returned *)
          (Return 0, p)
      end
  | PanickedNil =>
      match catchPanics v verbose logs resetLogs None p with
      | (Some c, p) => (Exit c, p)
      | (None, p) =>
          (* a recovered panic: the zero exit code is returned *)
          (Return 0, p)
      end
  | Returned exitCode err =>
      let p :=
        match err with
        | Some e =>
            let p := with_world (log.Errorf ("failed to run command: " +:+ e)) p in
            let p := with_world resetLogs p in
            if negb (exitCode =? ErrAuth code) && verbose
            then sendDiagnostics v (log.contents logs (world p)) (debug_Stack (world p)) p
            else p
        | None => p
        end in
      match catchPanics v verbose logs resetLogs None p with
      | (Some c, p) => (Exit c, p)
      | (None, p) => (Return exitCode, p)
      end
  end.

(** [RunCmd] runs a command function and exits with the exit code returned
    by the command function.  The result is the code the process exits
    with. *)
Definition RunCmd (v : Viper) (verbose : bool) (cmd : cmdFn Viper) (p : Process)
  : Z * Process :=
  match runCmd v verbose cmd p with
  | (Return exitCode, p) => (exitCode, p)
  | (Exit c, p) => (c, p)
  end.

(** [RunCmdWithOfflineSync]: if the command run was successful, it executes
    the offline sync command afterwards. *)
Definition RunCmdWithOfflineSync (v : Viper) (verbose : bool) (cmd : cmdFn Viper)
    (p : Process) : Z * Process :=
  match runCmd v verbose cmd p with
  | (Exit c, p) => (c, p)
  | (Return exitCode, p) =>
      if negb (exitCode =? Success code) then (exitCode, p)
      else
        match runCmd v verbose offlinesync_Run p with
        | (Return exitCode', p) => (exitCode', p)
        | (Exit c, p) => (c, p)
        end
  end.

End Supervisor.

End legacy.

(** ** Package paramscmd

    Modelled from the spec: the parameter structs of [cmd/params] are not
    among the sources; these are the fields the sources read. *)

Module paramscmd.

Record APIParams := mkAPI { Plugin : string }.

Record OfflineParams := mkOffline { Disabled : bool; QueueFile : string }.

Record FilterParams := mkFilter {
  Exclude : list string;
  ExcludeUnknownProject : bool;
  Include : list string;
  IncludeOnlyWithProjectFile : bool
}.

Record ProjectParams := mkProject {
  Alternate : string;
  DisableSubmodule : list string;
  MapPatterns : list (string * string);
  Override : string
}.

Record SanitizeParams := mkSanitize {
  HideBranchNames : list string;
  HideFileNames : list string;
  HideProjectFolder : bool;
  HideProjectNames : list string;
  ProjectPathOverride : string
}.

Record HeartbeatParams := mkHeartbeatParams {
  Category : string;
  CursorPosition : option Z;
  Entity : string;
  EntityType : string;
  ExtraHeartbeats : list Heartbeat;
  IsWrite : option bool;
  Language : option string;
  LanguageAlternate : string;
  LineNumber : option Z;
  LinesInFile : option Z;
  LocalFile : string;
  Time : float64;
  Filter : FilterParams;
  Project : ProjectParams;
  Sanitize : SanitizeParams
}.

Record Params := mkParams {
  API : APIParams;
  Heartbeat : HeartbeatParams;
  Offline : OfflineParams
}.

(** The zero value of [HeartbeatParams], which [loadParams] leaves in place
    when it is told not to load the heartbeat parameters. *)
Definition zeroHeartbeat : HeartbeatParams :=
  mkHeartbeatParams "" None "" "" [] None None "" None None ""
    (heartbeat.mkFloat 0 0)
    (mkFilter [] false [] false)
    (mkProject "" [] [] "")
    (mkSanitize [] [] false [] "").

End paramscmd.

(** ** Package offline (src/pkg/backoff/backoff.go, third part): the offline
    fallback *)

Module offline.

Import chain.

(** The collaborators of [SaveHeartbeats]: the parameter loaders of
    [cmd/params], the pipeline stages and the offline queue, none of which
    is among the sources.  Each stage takes the fields of its configuration
    struct in the order [initHandleOptions] gives them. *)
Record Deps (Viper : Type) := mkDeps {
  LoadAPIParams : Viper → paramscmd.APIParams * option error;
  LoadOfflineParams : Viper → paramscmd.OfflineParams * option error;
  LoadHeartbeatParams : Viper → paramscmd.HeartbeatParams * option error;
  (** the text [%s] prints for the parameters *)
  Params_String : paramscmd.Params → string;
  heartbeat_UserAgent : string → string;
  heartbeat_UserAgentUnknownPlugin : string;
  heartbeat_ShouldSanitize : string → list string → bool;
  RemoteAddressRegex : string;
  heartbeat_WithFormatting : string → HandleOption;
  filter_WithFiltering : list string → list string → bool → string → HandleOption;
  heartbeat_WithEntityModifer : HandleOption;
  remote_WithDetection : HandleOption;
  filestats_WithDetection : option Z → HandleOption;
  language_WithDetection : HandleOption;
  deps_WithDetection : list string → HandleOption;
  project_WithDetection : bool → list (string * string) → list string → HandleOption;
  project_WithFiltering : bool → HandleOption;
  heartbeat_WithSanitization :
    list string → list string → bool → list string → string → HandleOption;
  (** [offline.WithQueue] *)
  offline_WithQueue : string → World → result HandleOption * World;
  (** [SendHeartbeats] of [offline.Sender] *)
  offline_Sender : Handle
}.

Arguments LoadAPIParams {Viper} _.
Arguments LoadOfflineParams {Viper} _.
Arguments LoadHeartbeatParams {Viper} _.
Arguments Params_String {Viper} _.
Arguments heartbeat_UserAgent {Viper} _.
Arguments heartbeat_UserAgentUnknownPlugin {Viper} _.
Arguments heartbeat_ShouldSanitize {Viper} _.
Arguments RemoteAddressRegex {Viper} _.
Arguments heartbeat_WithFormatting {Viper} _.
Arguments filter_WithFiltering {Viper} _.
Arguments heartbeat_WithEntityModifer {Viper} _.
Arguments remote_WithDetection {Viper} _.
Arguments filestats_WithDetection {Viper} _.
Arguments language_WithDetection {Viper} _.
Arguments deps_WithDetection {Viper} _.
Arguments project_WithDetection {Viper} _.
Arguments project_WithFiltering {Viper} _.
Arguments heartbeat_WithSanitization {Viper} _.
Arguments offline_WithQueue {Viper} _.
Arguments offline_Sender {Viper} _.

(** Modelled from the spec: [heartbeat.New] is not among the sources; it
    builds the heartbeat from its arguments, in the order of the call
    sites. *)
Definition heartbeat_New (category : string) (cursorPosition : option Z)
    (entity entityType : string) (isWrite : option bool)
    (language : option string) (languageAlternate : string)
    (lineNumber : option Z) (localFile projectAlternate projectOverride
    projectPathOverride : string) (t : float64) (userAgent : string) : Heartbeat :=
  heartbeat.mkHeartbeat category cursorPosition entity entityType isWrite language
    languageAlternate lineNumber localFile projectAlternate projectOverride
    projectPathOverride t userAgent None.

Section Offline.
Context {Viper : Type} (d : Deps Viper).

(** [loadParams] *)
Definition loadParams (v : Viper) (shouldLoadHeartbeatParams : bool) (w : World)
  : result paramscmd.Params * World :=
  let '(paramAPI, err) := LoadAPIParams d v in
  let w :=
    match err with
    | Some e => log.Warnf ("failed to load API parameters: " +:+ e) w
    | None => w
    end in
  let '(paramOffline, err) := LoadOfflineParams d v in
  let w :=
    match err with
    | Some e => log.Warnf ("failed to load offline parameters: " +:+ e) w
    | None => w
    end in
  let params := paramscmd.mkParams paramAPI paramscmd.zeroHeartbeat paramOffline in
  if shouldLoadHeartbeatParams then
    let '(paramHeartbeat, err) := LoadHeartbeatParams d v in
    match err with
    | Some e => (Err ("failed to load heartbeat parameters: " +:+ e), w)
    | None => (Ok (paramscmd.mkParams paramAPI paramHeartbeat paramOffline), w)
    end
  else (Ok params, w).

(** [buildHeartbeats] *)
Definition buildHeartbeats (params : paramscmd.Params) (w : World)
  : list Heartbeat * World :=
  let ph := paramscmd.Heartbeat params in
  let userAgent :=
    if negb (config.is_empty (paramscmd.Plugin (paramscmd.API params)))
    then heartbeat_UserAgent d (paramscmd.Plugin (paramscmd.API params))
    else heartbeat_UserAgentUnknownPlugin d in
  let heartbeats :=
    [heartbeat_New
       (paramscmd.Category ph)
       (paramscmd.CursorPosition ph)
       (paramscmd.Entity ph)
       (paramscmd.EntityType ph)
       (paramscmd.IsWrite ph)
       (paramscmd.Language ph)
       (paramscmd.LanguageAlternate ph)
       (paramscmd.LineNumber ph)
       (paramscmd.LocalFile ph)
       (paramscmd.Alternate (paramscmd.Project ph))
       (paramscmd.Override (paramscmd.Project ph))
       (paramscmd.ProjectPathOverride (paramscmd.Sanitize ph))
       (paramscmd.Time ph)
       userAgent] in
  if 0 <? Z.of_nat (length (paramscmd.ExtraHeartbeats ph)) then
    let w :=
      log.Debugf
        ("include " +:+ fmt_s_int (Z.of_nat (length (paramscmd.ExtraHeartbeats ph)))
         +:+ " extra heartbeat(s) from stdin") w in
    (heartbeats ++
     map (λ h : Heartbeat,
            heartbeat_New
              (heartbeat.Category h)
              (heartbeat.CursorPosition h)
              (heartbeat.Entity h)
              (heartbeat.EntityType h)
              (heartbeat.IsWrite h)
              (heartbeat.Language h)
              (heartbeat.LanguageAlternate h)
              (heartbeat.LineNumber h)
              (heartbeat.LocalFile h)
              (heartbeat.ProjectAlternate h)
              (heartbeat.ProjectOverride h)
              (heartbeat.ProjectPathOverride h)
              (heartbeat.Time h)
              userAgent)
         (paramscmd.ExtraHeartbeats ph), w)
  else (heartbeats, w).

(** [setLogFields] *)
Definition setLogFields (params : paramscmd.Params) (w : World) : World :=
  let ph := paramscmd.Heartbeat params in
  let w :=
    if negb (config.is_empty (paramscmd.Plugin (paramscmd.API params)))
    then log.WithField "plugin" (FString (paramscmd.Plugin (paramscmd.API params))) w
    else w in
  let w := log.WithField "time" (FFloat (paramscmd.Time ph)) w in
  let w :=
    match paramscmd.LineNumber ph with
    | Some n => log.WithField "lineno" (FInt n) w
    | None => w
    end in
  let w :=
    match paramscmd.IsWrite ph with
    | Some b => log.WithField "is_write" (FBool b) w
    | None => w
    end in
  log.WithField "file" (FString (paramscmd.Entity ph)) w.

(** [initHandleOptions] *)
Definition initHandleOptions (params : paramscmd.Params) : list HandleOption :=
  let ph := paramscmd.Heartbeat params in
  let filter := paramscmd.Filter ph in
  let project := paramscmd.Project ph in
  let sanitize := paramscmd.Sanitize ph in
  [ heartbeat_WithFormatting d (RemoteAddressRegex d);
    filter_WithFiltering d (paramscmd.Exclude filter) (paramscmd.Include filter)
      (paramscmd.IncludeOnlyWithProjectFile filter) (RemoteAddressRegex d);
    heartbeat_WithEntityModifer d;
    remote_WithDetection d;
    filestats_WithDetection d (paramscmd.LinesInFile ph);
    language_WithDetection d;
    deps_WithDetection d (paramscmd.HideFileNames sanitize);
    project_WithDetection d
      (heartbeat_ShouldSanitize d (paramscmd.Entity ph)
         (paramscmd.HideProjectNames sanitize))
      (paramscmd.MapPatterns project) (paramscmd.DisableSubmodule project);
    project_WithFiltering d (paramscmd.ExcludeUnknownProject filter);
    heartbeat_WithSanitization d (paramscmd.HideBranchNames sanitize)
      (paramscmd.HideFileNames sanitize) (paramscmd.HideProjectFolder sanitize)
      (paramscmd.HideProjectNames sanitize) (RemoteAddressRegex d) ].

(** [SaveHeartbeats] saves heartbeats to the offline db.  [heartbeats] is
    [None] for a nil slice. *)
Definition SaveHeartbeats (v : Viper) (heartbeats : option (list Heartbeat))
    (queueFilepath : string) (w : World) : option error * World :=
  let '(loaded, w) := loadParams v (bool_decide (heartbeats = None)) w in
  match loaded with
  | Err err => (Some ("failed to load command parameters: " +:+ err), w)
  | Ok params =>
      let w := setLogFields params w in
      let w := log.Debugf ("params: " +:+ Params_String d params) w in
      if paramscmd.Disabled (paramscmd.Offline params)
      then (Some "saving to offline db disabled", w)
      else
        let '(heartbeats, w) :=
          match heartbeats with
          | None =>
              (* We're not saving surplus extra heartbeats, so save
                 main heartbeat and all extra heartbeats to offline db *)
              buildHeartbeats params w
          | Some hh => (hh, w)
          end in
        let handleOpts := initHandleOptions params in
        let queueFilepath :=
          if negb (config.is_empty (paramscmd.QueueFile (paramscmd.Offline params)))
          then paramscmd.QueueFile (paramscmd.Offline params)
          else queueFilepath in
        match offline_WithQueue d queueFilepath w with
        | (Err err, w) =>
            (Some ("failed saving heartbeats because unable to init offline queue: "
                   +:+ err), w)
        | (Ok offlineHandleOpt, w) =>
            let handleOpts := handleOpts ++ [offlineHandleOpt] in
            let handle := NewHandle (offline_Sender d) handleOpts in
            let '(_, w) := handle heartbeats w in
            (None, w)
        end
  end.

End Offline.

End offline.

(** ** The rule of the backoff gate as the specification words it *)

Module gate_spec.

Import time.

(** The decision rule in the words of the specification: the gate blocks
    iff [retries >= 1], [since] is set, [now < since + 15 * 2^retries]
    seconds and [now < since + 3600] seconds. *)
Definition spec_blocks (retries : Z) (since : option Time) (now : Time) : bool :=
  match since with
  | None => false
  | Some t0 =>
      (1 <=? retries) && (now <? t0 + 15 * 2 ^ retries * Second)
      && (now <? t0 + 3600 * Second)
  end.

(** [since] as the gate reads it from [Config.At]: the zero time is
    "unset". *)
Definition since_of (at_ : Time) : option Time :=
  if IsZero at_ then None else Some at_.

End gate_spec.

(** ** Concrete worlds and collaborators, for the examples *)

Module examples.

Import time.

(** A world for the examples: the clock reads [now]; nothing is on disk. *)
Definition world_at (now : Time) : World :=
  mkWorld now (λ _, Err "no such file") (λ _, None) false (WSink 0) [] [[]] "" ∅.

Definition t0 : Time := 63900000000 * Second.

(** A machine whose home directory is [/home/u], with no [--config]
    parameter and no [WAKATIME_HOME]. *)
Definition sys : config.Os unit :=
  config.mkOs unit (λ _ _, "") (λ s, Ok s) (λ _, None) ("/home/u", None)
    (Err "user: unknown userid") (λ a b, a +:+ "/" +:+ b).

Definition cfg_path : string := "/home/u/.wakatime.cfg".

(** A stand-in for [Time.Format]. *)
Definition Format (layout : string) (t : Time) : string :=
  layout +:+ "@" +:+ Itoa t.

(** The same world with an empty config file at [cfg_path]; with
    [read_only] the file cannot be saved. *)
Definition with_config (read_only : bool) (w : World) : World :=
  mkWorld (clock w)
    (λ p, if String.eqb p cfg_path then Ok ∅ else load w p)
    (λ p, if read_only then Some "permission denied" else None)
    (log_verbose w) (log_output w) (log_fields w) (sinks w) (stack w) (queue w).

(** The gate's settings: healthy, and in a failure streak that began more
    than an hour before [t0]. *)
Definition healthy : backoff.Config unit := backoff.mkConfig 0 0 tt.

Definition failing_streak : backoff.Config unit :=
  backoff.mkConfig (t0 - 4000 * Second) 3 tt.

(** Four distinct exit codes, and an api whose calls all succeed. *)
Definition codes : legacy.ExitCodes := legacy.mkExitCodes 0 1 104 103.

Definition api : legacy.Api unit :=
  legacy.mkApi unit unit string id (λ _ _, Ok "vim-wakatime") (λ _, Ok tt) id
    (λ _ _ _ w, (None, w)).

(** Commands: one that succeeds, one that fails with the generic error
    code after logging a line, one that panics, and the offline sync. *)
Definition cmd_ok : legacy.cmdFn unit :=
  legacy.mkCmd "today.Run" (λ _ w, (legacy.Returned 0 None, w)).

Definition cmd_fail : legacy.cmdFn unit :=
  legacy.mkCmd "heartbeatcmd.Run"
    (λ _ w, (legacy.Returned 1 (Some "boom"), log.Warnf "about to fail" w)).

Definition cmd_auth : legacy.cmdFn unit :=
  legacy.mkCmd "heartbeatcmd.Run"
    (λ _ w, (legacy.Returned 104 (Some "invalid api key"), w)).

Definition cmd_panic : legacy.cmdFn unit :=
  legacy.mkCmd "todaygoal.Run" (λ _ w, (legacy.Panicked "index out of range", w)).

Definition offlinesync_Run : legacy.cmdFn unit :=
  legacy.mkCmd "offlinesync.Run" (λ _ w, (legacy.Returned 0 None, w)).

(** A process that has done nothing yet. *)
Definition start : legacy.Process := legacy.mkProcess (world_at t0) [].

(** A heartbeat for a file. *)
Definition main_go : Heartbeat :=
  heartbeat.mkHeartbeat "coding" None "/src/main.go" "file" (Some true) None ""
    (Some 12) "" "" "" "" (heartbeat.mkFloat 1700000000 0) "wakatime/1.0" None.

(** Collaborators of the offline fallback: every stage passes the batch on,
    the queue stage appends the batch to the queue file and reports an
    error, the sender does nothing. *)
Definition enqueue (path : string) : chain.HandleOption :=
  λ next hh w,
    let '(_, w) := next hh w in
    (([], Some "disk full"),
     set_queue (<[path := default [] (queue w !! path) ++ hh]> (queue w)) w).

Definition deps (disabled : bool) : offline.Deps unit :=
  offline.mkDeps unit
    (λ _, (paramscmd.mkAPI "vim-wakatime", None))
    (λ _, (paramscmd.mkOffline disabled "", None))
    (λ _, (paramscmd.zeroHeartbeat, None))
    (λ _, "params")
    (λ plugin, "wakatime/1.0 " +:+ plugin) "wakatime/1.0 Unknown/0"
    (λ _ _, false) "ssh://"
    (λ _, id) (λ _ _ _ _, id) id id (λ _, id) id (λ _, id) (λ _ _ _, id)
    (λ _, id) (λ _ _ _ _ _, id)
    (λ path w, (Ok (enqueue path), w))
    (λ _ w, (([], None), w)).

(** A sender that fails after two seconds, and one that accepts every
    heartbeat. *)
Definition failing : chain.Handle :=
  λ hh w, (([], Some "connection refused"), set_clock (clock w + 2 * Second) w).

Definition succeeding : chain.Handle :=
  λ hh w, ((map (λ _, heartbeat.mkResult heartbeat.accepted None) hh, None), w).

End examples.

(** ** Package config, continued: ReadInConfig (src/pkg/config/config.go) *)

Module config_read.

(** The methods of [viper.Viper] and of [os] that [ReadInConfig] and [Run]
    call; none of them is among the sources.  A [*viper.Viper] is a mutable
    object: a method that changes it gives the new value. *)
Record ViperOps (Viper : Type) := mkViperOps {
  IsSet : Viper → string → bool;
  GetBool : Viper → string → bool;
  SetConfigType : string → Viper → Viper;
  SetConfigFile : string → Viper → Viper;
  MergeInConfig : Viper → Viper * option error;
  (** [os.IsNotExist(err)] for [_, err := os.Stat(path)] *)
  os_Stat_IsNotExist : string → bool
}.
Arguments IsSet {Viper} _ _ _.
Arguments GetBool {Viper} _ _ _.
Arguments SetConfigType {Viper} _ _ _.
Arguments SetConfigFile {Viper} _ _ _.
Arguments MergeInConfig {Viper} _ _.
Arguments os_Stat_IsNotExist {Viper} _ _.

Section ReadInConfig.
Context {Viper : Type} (ops : ViperOps Viper).

(** [ReadInConfig] reads wakatime config file in memory. *)
Definition ReadInConfig (v : Viper) (configFilePath : string) (w : World)
  : (Viper * option error) * World :=
  let v := SetConfigType ops "ini" v in
  let v := SetConfigFile ops configFilePath v in
  (* check if file exists *)
  if os_Stat_IsNotExist ops configFilePath then
    let w := log.Debugf "config file not present or not accessible" w in
    ((v, None), w)
  else
    match MergeInConfig ops v with
    | (v, Some err) => ((v, Some ("error parsing config file: " +:+ err)), w)
    | (v, None) => ((v, None), w)
    end.

End ReadInConfig.

End config_read.

(** ** Package filestats (src/pkg/backoff/backoff.go, fourth part) *)

Module filestats.

Import chain.

(** Max file size supporting line number count stats. *)
Definition maxFileSizeSupported : Z := 2097152.

Definition lineSep : Byte.byte := Byte.x0a.

(** [bytes.Count(s, sep)] for a separator of one byte. *)
Definition Count (s : list Byte.byte) (sep : Byte.byte) : Z :=
  Z.of_nat (count_occ Byte.byte_eq_dec s sep).

(** What the successive calls of [f.Read(buf)] give on an open file: some
    reads that return bytes and a nil error (each at most the 32 KiB of
    [buf]), then one read that returns bytes, possibly none, together with
    [io.EOF] or with another error. *)
Inductive ReadEnd :=
| EOF
| Failed (e : error).

Record Reads := mkReads {
  chunks : list (list Byte.byte);
  final : list Byte.byte;
  ending : ReadEnd
}.

(** The file system, the constant [heartbeat.FileType], the verb [%q] and
    the two notepads of [jwalterweatherman] that the package uses; none of
    them is among the sources. *)
Record Deps := mkDeps {
  FileType : string;
  (** [fileInfo.Size()] for [fileInfo, err := os.Stat(path)] *)
  os_Stat : string → result Z;
  os_Open : string → result Reads;
  Quote : string → string;
  jww_WARN : string → World → World;
  jww_DEBUG : string → World → World
}.

(** [hh[n].Lines = lines] on one heartbeat. *)
Definition with_Lines (lines : option Z) (h : Heartbeat) : Heartbeat :=
  heartbeat.mkHeartbeat
    (heartbeat.Category h) (heartbeat.CursorPosition h) (heartbeat.Entity h)
    (heartbeat.EntityType h) (heartbeat.IsWrite h) (heartbeat.Language h)
    (heartbeat.LanguageAlternate h) (heartbeat.LineNumber h)
    (heartbeat.LocalFile h) (heartbeat.ProjectAlternate h)
    (heartbeat.ProjectOverride h) (heartbeat.ProjectPathOverride h)
    (heartbeat.Time h) (heartbeat.UserAgent h) lines.

Section Filestats.
Variable d : Deps.

(** The loop of [countLineNumbers]: [count] is an [int]. *)
Fixpoint readLoop (chunks : list (list Byte.byte)) (final : list Byte.byte)
    (ending : ReadEnd) (count : Z) : Z * option error :=
  match chunks with
  | c :: rest => readLoop rest final ending (int_add count (Count c lineSep))
  | [] =>
      let count := int_add count (Count final lineSep) in
      match ending with
      | EOF => (count, None)
      | Failed err => (count, Some err)
      end
  end.

(** [countLineNumbers] *)
Definition countLineNumbers (filepath : string) : Z * option error :=
  match os_Open d filepath with
  | Err err => (0, Some ("failed to open file: " +:+ err))
  | Ok f => readLoop (chunks f) (final f) (ending f) 0
  end.

(** One turn of the loop [for n, h := range hh] of [WithDetection]. *)
Definition visit (acc : list Heartbeat * World) (n : nat)
  : list Heartbeat * World :=
  let '(hh, w) := acc in
  match hh !! n with
  | None => acc
  | Some h =>
      if String.eqb (heartbeat.EntityType h) (FileType d) then
        let filepath :=
          if negb (config.is_empty (heartbeat.LocalFile h))
          then heartbeat.LocalFile h
          else heartbeat.Entity h in
        match os_Stat d filepath with
        | Err err =>
            (hh, jww_WARN d ("failed to retrieve file stats of file "
                             +:+ Quote d filepath +:+ ": " +:+ err) w)
        | Ok size =>
            if maxFileSizeSupported <? size then
              (hh, jww_DEBUG d ("file " +:+ Quote d (heartbeat.Entity h)
                                +:+ " exceeds max file size of "
                                +:+ Itoa maxFileSizeSupported
                                +:+ " bytes. Lines won't be counted") w)
            else
              match countLineNumbers filepath with
              | (_, Some err) =>
                  (hh, jww_WARN d
                         ("failed to detect the total number of lines in file "
                          +:+ Quote d filepath +:+ ": " +:+ err) w)
              | (lines, None) => (alter (with_Lines (Some lines)) n hh, w)
              end
        end
      else acc
  end.

(** [WithDetection] *)
Definition WithDetection : HandleOption :=
  λ next hh w,
    let '(hh, w) := foldl visit (hh, w) (seq 0 (length hh)) in
    next hh w.

(** The file whose lines are counted for a heartbeat; the count the loop
    arrives at for it, if it arrives at one; and the heartbeat as its turn
    of the loop leaves it. *)
Definition file_of (h : Heartbeat) : string :=
  if negb (config.is_empty (heartbeat.LocalFile h))
  then heartbeat.LocalFile h
  else heartbeat.Entity h.

Definition counted (h : Heartbeat) : option Z :=
  if String.eqb (heartbeat.EntityType h) (FileType d) then
    match os_Stat d (file_of h) with
    | Err _ => None
    | Ok size =>
        if maxFileSizeSupported <? size then None
        else
          match countLineNumbers (file_of h) with
          | (lines, None) => Some lines
          | (_, Some _) => None
          end
    end
  else None.

Definition detect (h : Heartbeat) : Heartbeat :=
  match counted h with
  | Some lines => with_Lines (Some lines) h
  | None => h
  end.

End Filestats.

End filestats.

(** ** Package legacy, continued: Run and SetupLogging *)

Module legacy_run.

Import legacy config_read.

(** Modelled from the spec: [logfile.Params] is not among the sources; these
    are the fields the sources read. *)
Record LogfileParams := mkLogfileParams {
  File : string;
  ToStdout : bool;
  Verbose : bool
}.

(** An [*os.File] used for logging: the standard output, or a file that was
    opened, which is a sink. *)
Inductive LogFile :=
| Stdout
| Opened (sink : nat).

(** The process with its standard output and standard error: what was
    written to each, one entry per call. *)
Record Machine := mkMachine {
  proc : Process;
  stdout : list string;
  stderr : list string
}.

Definition on_world (f : World → World) (m : Machine) : Machine :=
  mkMachine (with_world f (proc m)) (stdout m) (stderr m).

Definition on_proc {A : Type} (f : Process → A * Process) (m : Machine)
  : A * Machine :=
  let '(a, p) := f (proc m) in (a, mkMachine p (stdout m) (stderr m)).

(** [fmt.Fprintf(os.Stderr, ...)] and [fmt.Println(...)] *)
Definition Fprintf_Stderr (s : string) (m : Machine) : Machine :=
  mkMachine (proc m) (stdout m) (stderr m ++ [s]).

Definition Println (s : string) (m : Machine) : Machine :=
  mkMachine (proc m) (stdout m ++ [s]) (stderr m).

(** [log.SetVerbose] *)
Definition SetVerbose (b : bool) (w : World) : World :=
  mkWorld (clock w) (load w) (save_error w) b (log_output w)
          (log_fields w) (sinks w) (stack w) (queue w).

(** The collaborators of [Run] and [SetupLogging] ([logfile], [os],
    [pkg/log], [heartbeat], [cobra] and the command functions), none of
    which is among the sources. *)
Record Cli (Viper : Type) := mkCli {
  logfile_LoadParams : Viper → result LogfileParams;
  (** [os.OpenFile(path, O_CREATE|O_APPEND|O_WRONLY, 0666)] *)
  os_OpenFile : string → World → result nat * World;
  (** [log.Fatalf]: logs, and gives the code the process exits with *)
  log_Fatalf : string → World → Z * World;
  log_SetJww : bool → LogFile → World → World;
  heartbeat_UserAgent : string → string;
  heartbeat_UserAgentUnknownPlugin : string;
  (** the text [cmd.Help()] prints; its error is dropped *)
  cobra_Help : string;
  runVersion : cmdFn Viper;
  configread_Run : cmdFn Viper;
  configwrite_Run : cmdFn Viper;
  today_Run : cmdFn Viper;
  todaygoal_Run : cmdFn Viper;
  heartbeatcmd_Run : cmdFn Viper;
  heartbeatcmd_RunWithoutSending : cmdFn Viper;
  offlinesync_Run : cmdFn Viper;
  offlinecount_Run : cmdFn Viper
}.
Arguments logfile_LoadParams {Viper} _ _.
Arguments os_OpenFile {Viper} _ _ _.
Arguments log_Fatalf {Viper} _ _ _.
Arguments log_SetJww {Viper} _ _ _ _.
Arguments heartbeat_UserAgent {Viper} _ _.
Arguments heartbeat_UserAgentUnknownPlugin {Viper} _.
Arguments cobra_Help {Viper} _.
Arguments runVersion {Viper} _.
Arguments configread_Run {Viper} _.
Arguments configwrite_Run {Viper} _.
Arguments today_Run {Viper} _.
Arguments todaygoal_Run {Viper} _.
Arguments heartbeatcmd_Run {Viper} _.
Arguments heartbeatcmd_RunWithoutSending {Viper} _.
Arguments offlinesync_Run {Viper} _.
Arguments offlinecount_Run {Viper} _.

(** The parameters [Run] tells the user about when none is given. *)
Definition parameters : list string :=
  [ "--config-read"; "--config-write"; "--entity"; "--offline-count";
    "--sync-offline-activity"; "--today"; "--today-goal"; "--useragent";
    "--version" ].

(** [strings.Join] *)
Fixpoint Join (l : list string) (sep : string) : string :=
  match l with
  | [] => ""
  | [s] => s
  | s :: rest => s +:+ sep +:+ Join rest sep
  end.

Section Run.
Context {Viper : Type} (code : ExitCodes) (api : Api Viper)
        (sys : config.Os Viper) (ops : ViperOps Viper) (cli : Cli Viper).

(** [SetupLogging] uses the --log-file param to configure logging to file
    or stdout. *)
Definition SetupLogging (v : Viper) (m : Machine)
  : Control LogfileParams * Machine :=
  match logfile_LoadParams cli v with
  | Err err =>
      let m := Fprintf_Stderr ("failed to load log params: " +:+ err) m in
      let '(c, w) := log_Fatalf cli ("failed to load log params: " +:+ err)
                       (world (proc m)) in
      (Exit c, on_world (λ _, w) m)
  | Ok logfileParams =>
      let opened :=
        if negb (ToStdout logfileParams) then
          match os_OpenFile cli (File logfileParams) (world (proc m)) with
          | (Err err, w) =>
              let m := on_world (λ _, w) m in
              let m := Fprintf_Stderr ("error opening log file: " +:+ err) m in
              let '(c, w) := log_Fatalf cli ("error opening log file: " +:+ err)
                               (world (proc m)) in
              (Exit c, on_world (λ _, w) m)
          | (Ok sink, w) =>
              let m := on_world (λ _, w) m in
              (Return (Opened sink),
               on_world (log.SetOutput (WSink sink)) m)
          end
        else (Return Stdout, m) in
      match opened with
      | (Exit c, m) => (Exit c, m)
      | (Return logFile, m) =>
          let m := on_world (SetVerbose (Verbose logfileParams)) m in
          let m := on_world (log_SetJww cli (Verbose logfileParams) logFile) m in
          (Return logfileParams, m)
      end
  end.

(** [RunCmd] and [RunCmdWithOfflineSync] on the machine. *)
Definition run (verbose : bool) (cmd : cmdFn Viper) (v : Viper) (m : Machine)
  : Z * Machine :=
  on_proc (RunCmd code api v verbose cmd) m.

Definition runWithOfflineSync (verbose : bool) (cmd : cmdFn Viper) (v : Viper)
    (m : Machine) : Z * Machine :=
  on_proc (RunCmdWithOfflineSync code api (offlinesync_Run cli) v verbose cmd) m.

(** The commands of [Run] after the useragent command, in the order of the
    source.  Each [if] of the source ends the process in [RunCmd] or
    [RunCmdWithOfflineSync], so the next one is reached only when the
    condition does not hold. *)
Definition commands (v : Viper) (verbose : bool) (m : Machine) : Z * Machine :=
  if GetBool ops v "version" then
    run verbose (runVersion cli) v
      (on_world (log.Debugln "command: version") m)
  else if IsSet ops v "config-read" then
    run verbose (configread_Run cli) v
      (on_world (log.Debugln "command: config-read") m)
  else if IsSet ops v "config-write" then
    run verbose (configwrite_Run cli) v
      (on_world (log.Debugln "command: config-write") m)
  else if GetBool ops v "today" then
    run verbose (today_Run cli) v
      (on_world (log.Debugln "command: today") m)
  else if IsSet ops v "today-goal" then
    run verbose (todaygoal_Run cli) v
      (on_world (log.Debugln "command: today-goal") m)
  else if IsSet ops v "entity" then
    runWithOfflineSync verbose (heartbeatcmd_Run cli) v
      (on_world (log.Debugln "command: heartbeat") m)
  else if IsSet ops v "sync-offline-activity" then
    run verbose (offlinesync_Run cli) v
      (on_world (log.Debugln "command: sync-offline-activity") m)
  else if GetBool ops v "offline-count" then
    run verbose (offlinecount_Run cli) v
      (on_world (log.Debugln "command: offline-count") m)
  else
    let m :=
      on_world
        (log.Warnf ("one of the following parameters has to be provided: "
                    +:+ Join parameters ", ")) m in
    let m := Println (cobra_Help cli) m in
    (ErrGeneric code, m).

(** The first statements of [Run]: the path of the config file is looked
    up (an error is reported and the empty path is used) and the file is
    read into [v]. *)
Definition loadConfig (v : Viper) (m : Machine)
  : (Viper * option error) * Machine :=
  let '(configFile, m) :=
    match config.FilePath sys v with
    | Err err =>
        ("", Fprintf_Stderr ("error getting config file path: " +:+ err) m)
    | Ok configFile => (configFile, m)
    end in
  let '(r, w) := ReadInConfig ops v configFile (world (proc m)) in
  (r, on_world (λ _, w) m).

(** [Run] executes legacy commands following the interface of the old
    python implementation of the WakaTime script.  The result is the code
    the process exits with. *)
Definition Run (v : Viper) (m : Machine) : Z * Machine :=
  let '((v, err), m) := loadConfig v m in
  match err with
  | Some err =>
      let m :=
        Fprintf_Stderr ("failed to load configuration file: " +:+ err) m in
      match SetupLogging v m with
      | (Exit c, m) => (c, m)
      | (Return _, m) =>
          let m :=
            on_world
              (log.Errorf ("failed to load configuration file: " +:+ err)) m in
          if IsSet ops v "entity"
          then run false (heartbeatcmd_RunWithoutSending cli) v m
          else (ErrConfigFileParse code, m)
      end
  | None =>
      match SetupLogging v m with
      | (Exit c, m) => (c, m)
      | (Return logFileParams, m) =>
          if GetBool ops v "useragent" then
            let m := on_world (log.Debugln "command: useragent") m in
            let plugin := config.vipertools_GetString sys v "plugin" in
            if negb (config.is_empty plugin) then
              let m := Println (heartbeat_UserAgent cli plugin) m in
              (Success code, m)
            else
              let m := Println (heartbeat_UserAgentUnknownPlugin cli) m in
              (Success code, m)
          else commands v (Verbose logFileParams) m
      end
  end.

End Run.

End legacy_run.

(** ** Logging a sequence of lines *)

Module logging_seq.

(** The log calls [log.emit l msg] for the lines [(l, msg)] of a list, one
    after the other. *)
Definition logging (lines : list LogLine) (w : World) : World :=
  foldl (λ w line, log.emit (fst line) (snd line) w) w lines.

End logging_seq.
Export logging_seq.

(** ** Replacing one collaborator of the offline fallback *)

Module offline_deps.

Import offline.

(** [d] with another loader of the heartbeat parameters. *)
Definition with_LoadHeartbeatParams {Viper : Type}
    (f : Viper → paramscmd.HeartbeatParams * option error) (d : Deps Viper)
  : Deps Viper :=
  mkDeps Viper (LoadAPIParams d) (LoadOfflineParams d) f (Params_String d)
    (heartbeat_UserAgent d) (heartbeat_UserAgentUnknownPlugin d)
    (heartbeat_ShouldSanitize d) (RemoteAddressRegex d)
    (heartbeat_WithFormatting d) (filter_WithFiltering d)
    (heartbeat_WithEntityModifer d) (remote_WithDetection d)
    (filestats_WithDetection d) (language_WithDetection d)
    (deps_WithDetection d) (project_WithDetection d) (project_WithFiltering d)
    (heartbeat_WithSanitization d) (offline_WithQueue d) (offline_Sender d).


End offline_deps.

(** ** More concrete instances, for the examples *)

Module examples_extra.

Import time examples.

(** A config file with an api key in its [settings] section, a writer for
    it, and a world that has it on disk; with [read_only] it cannot be
    saved. *)
Definition settings_file : IniFile :=
  {[ "settings" := {[ "api_key" := "secret" ]} ]}.

Definition writer : config.IniWriter :=
  config.mkIniWriter (Some settings_file) cfg_path.



(** A gate in a failure streak that began twenty seconds before [t0]. *)
Definition recent_streak : backoff.Config unit :=
  backoff.mkConfig (t0 - 20 * Second) 2 tt.

(** Three log lines. *)
Definition three_lines : list LogLine :=
  [(WarnLevel, "a"); (DebugLevel, "b"); (ErrorLevel, "c")].

(** Offline collaborators whose parameters name a queue file. *)
Definition deps_queue_file : offline.Deps unit :=
  offline.mkDeps unit
    (λ _, (paramscmd.mkAPI "vim-wakatime", None))
    (λ _, (paramscmd.mkOffline false "/custom.bdb", None))
    (λ _, (paramscmd.zeroHeartbeat, None))
    (λ _, "params")
    (λ plugin, "wakatime/1.0 " +:+ plugin) "wakatime/1.0 Unknown/0"
    (λ _ _, false) "ssh://"
    (λ _, id) (λ _ _ _ _, id) id id (λ _, id) id (λ _, id) (λ _ _ _, id)
    (λ _, id) (λ _ _ _ _ _, id)
    (λ path w, (Ok (enqueue path), w))
    (λ _ w, (([], None), w)).


(** A file system with a small file of two lines, read in two pieces, the
    second line without a newline at its end, and a file of 3 MB. *)
Definition main_go_reads : filestats.Reads :=
  filestats.mkReads [[Byte.x61; Byte.x0a; Byte.x62]; [Byte.x0a; Byte.x63]] []
    filestats.EOF.

Definition files : filestats.Deps :=
  filestats.mkDeps "file"
    (λ p, if String.eqb p "/src/main.go" then Ok 5
          else if String.eqb p "/big.bin" then Ok 3000000
          else Err "no such file or directory")
    (λ p, if String.eqb p "/src/main.go" then Ok main_go_reads
          else Err "no such file or directory")
    (λ s, s) (λ _ w, w) (λ _ w, w).

Definition big_bin : Heartbeat :=
  heartbeat.mkHeartbeat "coding" None "/big.bin" "file" None None ""
    None "" "" "" "" (heartbeat.mkFloat 1700000000 0) "wakatime/1.0" (Some 7).

(** A command line: the parameters that are set; a config file that is
    there and, with [broken], cannot be merged. *)
Definition ops (broken : bool) : config_read.ViperOps (list string) :=
  config_read.mkViperOps (list string)
    (λ v k, bool_decide (k ∈ v)) (λ v k, bool_decide (k ∈ v))
    (λ _ v, v) (λ _ v, v)
    (λ v, (v, if broken then Some "unclosed section" else None))
    (λ _, false).

Definition sys_cli : config.Os (list string) :=
  config.mkOs (list string) (λ _ _, "") (λ s, Ok s) (λ _, None)
    ("/home/u", None) (Err "user: unknown userid") (λ a b, a +:+ "/" +:+ b).

Definition api_cli : legacy.Api (list string) :=
  legacy.mkApi (list string) unit string id (λ _ _, Ok "vim-wakatime")
    (λ _, Ok tt) id (λ _ _ _ w, (None, w)).

Definition named (name : string) : legacy.cmdFn (list string) :=
  legacy.mkCmd name (λ _ w, (legacy.Returned 0 None, w)).

Definition cli : legacy_run.Cli (list string) :=
  legacy_run.mkCli (list string)
    (λ _, Ok (legacy_run.mkLogfileParams "" true false))
    (λ _ w, (Err "unused", w)) (λ _ w, (1, w)) (λ _ _ w, w)
    (λ plugin, "wakatime/1.0 " +:+ plugin) "wakatime/1.0 Unknown/0"
    "usage: wakatime-cli"
    (named "runVersion") (named "configread.Run") (named "configwrite.Run")
    (named "today.Run") (named "todaygoal.Run") (named "heartbeatcmd.Run")
    (named "heartbeatcmd.RunWithoutSending") (named "offlinesync.Run")
    (named "offlinecount.Run").

(** A command that panics with nil. *)
Definition cmd_panic_nil : legacy.cmdFn unit :=
  legacy.mkCmd "todaygoal.Run" (λ _ w, (legacy.PanickedNil, w)).

Definition machine : legacy_run.Machine := legacy_run.mkMachine start [] [].

End examples_extra.

(** * Properties *)

(** ** The logger leaves the rest of the world alone *)

Module log_props.

Lemma emit_clock l msg w : clock (log.emit l msg w) = clock w.
Proof. unfold log.emit. by destruct (log.enabled l w). Qed.

Lemma emit_load l msg w : load (log.emit l msg w) = load w.
Proof. unfold log.emit. by destruct (log.enabled l w). Qed.

Lemma emit_save_error l msg w : save_error (log.emit l msg w) = save_error w.
Proof. unfold log.emit. by destruct (log.enabled l w). Qed.

Lemma emit_queue l msg w : queue (log.emit l msg w) = queue w.
Proof. unfold log.emit. by destruct (log.enabled l w). Qed.

Lemma emit_log_output l msg w : log_output (log.emit l msg w) = log_output w.
Proof. unfold log.emit. by destruct (log.enabled l w). Qed.

Lemma emit_stack l msg w : stack (log.emit l msg w) = stack w.
Proof. unfold log.emit. by destruct (log.enabled l w). Qed.

End log_props.

(** ** The backoff gate *)

Module backoff_props.

Import time chain backoff gate_spec examples.

Section Gate.
Context {Viper : Type} (sys : config.Os Viper).
Variable Format : string → Time → string.
Variable oor : Z.

Lemma shouldBackoff_fst retries at_ w :
  fst (shouldBackoff Format oor retries at_ w) =
  negb ((retries <? 1) || IsZero at_)
  && Before (clock w) (Add at_ (backoffDuration oor retries))
  && Before (clock w) (Add at_ (resetAfter * Second)).
Proof.
  unfold shouldBackoff.
  destruct ((retries <? 1) || IsZero at_); simpl; [done|].
  done.
Qed.

(** No overflow up to 29 retries: the duration is [15 * 2^retries]
    seconds. *)
Lemma backoffDuration_small retries :
  1 <= retries <= 29 →
  backoffDuration oor retries = 15 * 2 ^ retries * Second.
Proof.
  intros Hr. unfold backoffDuration, int_mul, float64_to_int64, factor, Second.
  assert (H2 : 2 ^ 1 <= 2 ^ retries <= 2 ^ 29)
    by (split; apply Z.pow_le_mono_r; lia).
  change (2 ^ 1) with 2 in H2. change (2 ^ 29) with 536870912 in H2.
  unfold max_int64.
  destruct (15 * 2 ^ retries <=? 2 ^ 63 - 1) eqn:E.
  - unfold wrap64.
    rewrite Z.mod_small; [lia|].
    change (2 ^ 63) with 9223372036854775808.
    change (2 ^ 64) with 18446744073709551616. lia.
  - apply Z.leb_gt in E. change (2 ^ 63) with 9223372036854775808 in E. lia.
Qed.

(** Within that range the gate decides as the specification says. *)
Lemma shouldBackoff_spec_small retries at_ w :
  retries <= 29 →
  fst (shouldBackoff Format oor retries at_ w) =
  spec_blocks retries (since_of at_) (clock w).
Proof.
  intros Hr. rewrite shouldBackoff_fst.
  unfold spec_blocks, since_of.
  destruct (retries <? 1) eqn:E1; simpl.
  - apply Z.ltb_lt in E1.
    destruct (IsZero at_); [done|].
    replace (1 <=? retries) with false by (symmetry; apply Z.leb_gt; lia).
    done.
  - apply Z.ltb_ge in E1.
    destruct (IsZero at_); simpl; [done|].
    rewrite backoffDuration_small by lia.
    replace (1 <=? retries) with true by (symmetry; apply Z.leb_le; lia).
    done.
Qed.

(** Whatever the number of retries, the gate lets the call through without
    a failure streak, and once an hour has passed since [At]. *)
Lemma shouldBackoff_never retries at_ w :
  retries < 1 ∨ at_ = 0 ∨ at_ + 3600 * Second <= clock w →
  fst (shouldBackoff Format oor retries at_ w) = false.
Proof.
  rewrite shouldBackoff_fst. unfold IsZero, Before, Add, resetAfter.
  intros [H|[H|H]].
  - apply Z.ltb_lt in H. by rewrite H.
  - apply Z.eqb_eq in H. rewrite H. by rewrite orb_true_r.
  - apply Z.ltb_ge in H. rewrite H. by rewrite andb_false_r.
Qed.

(** C1, on the code: with 30 retries the product [15 * 2^30 * 10^9]
    overflows [int64], the duration is negative, and the gate lets the call
    through at every instant from [At] on, where the rule of the
    specification blocks during the first hour. *)
Theorem shouldBackoff_overflow at_ w :
  at_ <= clock w →
  clock w < at_ + 3600 * Second →
  fst (shouldBackoff Format oor 30 at_ w) = false
  ∧ spec_blocks 30 (Some at_) (clock w) = true.
Proof.
  intros Hle Hlt. split.
  - rewrite shouldBackoff_fst.
    replace (backoffDuration oor 30) with (-2340616713709551616)
      by (vm_compute; reflexivity).
    unfold Before, Add.
    replace (clock w <? at_ + -2340616713709551616) with false
      by (symmetry; apply Z.ltb_ge; lia).
    by rewrite andb_false_r.
  - unfold spec_blocks, Second in *.
    change (2 ^ 30) with 1073741824.
    replace (1 <=? 30) with true by reflexivity.
    rewrite !andb_true_iff, !Z.ltb_lt. lia.
Qed.

(** *** Writing the two keys *)

Lemma Value_SetValue section key value (f : IniFile) k :
  config.Value (config.SetValue section key value f) section k =
  if decide (key = k) then Some value else config.Value f section k.
Proof.
  unfold config.Value, config.SetValue.
  rewrite lookup_insert_eq. simpl.
  rewrite lookup_insert. case_decide; [done|].
  by destruct (f !! section).
Qed.

Lemma Value_fold section (kv : gmap string string) (f : IniFile) k :
  config.Value (map_fold (λ key value, config.SetValue section key value) f kv)
    section k =
  match kv !! k with
  | Some v => Some v
  | None => config.Value f section k
  end.
Proof.
  revert k.
  apply (map_fold_weak_ind
    (λ (r : IniFile) (m : gmap string string), ∀ k,
       config.Value r section k =
       match m !! k with Some v => Some v | None => config.Value f section k end)).
  - intros k. by rewrite lookup_empty.
  - intros i x m r Hi IH k.
    rewrite Value_SetValue, lookup_insert.
    case_decide; [done|]. apply IH.
Qed.

Lemma stored_SaveTo f path w section key :
  config.stored (config.SaveTo f path w) path section key =
  config.Value f section key.
Proof.
  unfold config.stored, config.SaveTo. simpl. by rewrite String.eqb_refl.
Qed.

(** [updateBackoffSettings] either fails and leaves the world as it is, or
    succeeds and changes nothing but the file at the config path. *)
Lemma update_fails_world v retries at_ w ue w' :
  updateBackoffSettings sys Format v retries at_ w = (Some ue, w') → w' = w.
Proof.
  unfold updateBackoffSettings, config.NewIniWriter, config.Write.
  destruct (config.FilePath sys v) as [path|]; [|by inversion 1].
  destruct (load w path); [|by inversion 1]. simpl.
  destruct (config.is_empty path); [by inversion 1|].
  destruct (save_error w path); by inversion 1.
Qed.

Lemma update_ok v retries at_ w path f :
  config.FilePath sys v = Ok path →
  path ≠ "" →
  load w path = Ok f →
  save_error w path = None →
  ∃ w', updateBackoffSettings sys Format v retries at_ w = (None, w')
    ∧ config.stored w' path "internal" "backoff_retries" = Some (Itoa retries)
    ∧ config.stored w' path "internal" "backoff_at" =
        Some (if IsZero at_ then "" else Format config.DateFormat at_).
Proof.
  intros Hp Hne Hl Hs.
  unfold updateBackoffSettings, config.NewIniWriter, config.Write.
  rewrite Hp, Hl. simpl.
  replace (config.is_empty path) with false
    by (symmetry; unfold config.is_empty; by apply String.eqb_neq).
  rewrite Hs. eexists. split; [reflexivity|].
  rewrite !stored_SaveTo, !Value_fold.
  destruct (IsZero at_); simpl; by simplify_map_eq.
Qed.

Lemma int_add_succ n : in_int64 n → n < max_int64 → int_add n 1 = n + 1.
Proof.
  unfold in_int64, min_int64, max_int64, int_add, wrap64. intros H1 H2.
  change (2 ^ 63) with 9223372036854775808 in *.
  change (2 ^ 64) with 18446744073709551616.
  rewrite Z.mod_small; lia.
Qed.

(** What [WithBackoff] returns, whatever happens to the settings. *)
Lemma WithBackoff_value cfg next hh w :
  fst (WithBackoff sys Format oor cfg next hh w) =
  if blocks Format oor cfg w then ([], Some errBackoff)
  else
    match fst (next hh (gate_entry Format oor cfg w)) with
    | (results, None) => (results, None)
    | (_, Some e) => ([], Some e)
    end.
Proof.
  unfold WithBackoff, blocks, gate_entry.
  destruct (shouldBackoff _ _ _ _ _) as [b w0]. simpl.
  destruct b; [done|].
  destruct (next hh w0) as [[results err] w1]. simpl.
  destruct err; [|done].
  by destruct (updateBackoffSettings _ _ _ _ _ _).
Qed.


Lemma persist_fails_update v retries at_ w :
  persist_fails sys v w = true →
  ∃ ue, updateBackoffSettings sys Format v retries at_ w = (Some ue, w).
Proof.
  unfold persist_fails, updateBackoffSettings, config.NewIniWriter, config.Write.
  destruct (config.FilePath sys v) as [path|]; [|by eauto].
  destruct (load w path); [|by eauto]. simpl.
  destruct (config.is_empty path); [by eauto|]. simpl.
  destruct (save_error w path); [by eauto|done].
Qed.

Lemma persist_fails_emit v l msg w :
  persist_fails sys v (log.emit l msg w) = persist_fails sys v w.
Proof.
  unfold persist_fails.
  by rewrite log_props.emit_load, log_props.emit_save_error.
Qed.

(** C2: when the gate lets the call through and the next handle fails, the
    gate returns that error with no results, and a write that goes through
    leaves [backoff_retries] at the retries plus one (Go's [int] addition,
    which is the successor below the largest [int]) and [backoff_at] at the
    time read after the failure, whatever [At] and [Retries] were. *)
Theorem failing_delegate_increments cfg next hh w results e w1 :
  blocks Format oor cfg w = false →
  next hh (gate_entry Format oor cfg w) = ((results, Some e), w1) →
  ∃ w2,
    WithBackoff sys Format oor cfg next hh w = (([], Some e), w2)
    ∧ (∀ path f,
         config.FilePath sys (V cfg) = Ok path → path ≠ "" →
         load w1 path = Ok f → save_error w1 path = None →
         clock w1 ≠ 0 →
         config.stored w2 path "internal" "backoff_retries"
           = Some (Itoa (int_add (Retries cfg) 1))
         ∧ config.stored w2 path "internal" "backoff_at"
           = Some (Format config.DateFormat (clock w1)))
    ∧ (in_int64 (Retries cfg) → Retries cfg < max_int64 →
       int_add (Retries cfg) 1 = Retries cfg + 1).
Proof.
  unfold blocks, gate_entry, WithBackoff.
  destruct (shouldBackoff _ _ _ _ _) as [b w0]. simpl.
  intros -> Hnext. rewrite Hnext.
  destruct (updateBackoffSettings _ _ _ _ _ _) as [ue w'] eqn:Hu.
  eexists. split; [reflexivity|]. split; [|apply int_add_succ].
  intros path f Hp Hne Hl Hs Hc.
  destruct (update_ok (V cfg) (int_add (Retries cfg) 1)
              (clock (log.Debugf "incrementing backoff due to error" w1))
              (log.Debugf "incrementing backoff due to error" w1) path f)
    as (w'' & Hu' & Hr & Ha); try done.
  - unfold log.Debugf. by rewrite log_props.emit_load.
  - unfold log.Debugf. by rewrite log_props.emit_save_error.
  - rewrite Hu in Hu'. injection Hu' as -> ->.
    unfold log.Debugf in Ha. rewrite log_props.emit_clock in Ha.
    replace (IsZero (clock w1)) with false in Ha
      by (symmetry; by apply Z.eqb_neq).
    done.
Qed.

(** C3: when the gate lets the call through and the next handle succeeds,
    its results are returned as they are; with [At] unset the world is left
    exactly as the next handle left it, and with [At] set a write that goes
    through leaves [backoff_retries] at 0 and [backoff_at] empty. *)
Theorem successful_delegate_resets cfg next hh w results w1 :
  blocks Format oor cfg w = false →
  next hh (gate_entry Format oor cfg w) = ((results, None), w1) →
  ∃ w2,
    WithBackoff sys Format oor cfg next hh w = ((results, None), w2)
    ∧ (At cfg = 0 → w2 = w1)
    ∧ (At cfg ≠ 0 →
       ∀ path f,
         config.FilePath sys (V cfg) = Ok path → path ≠ "" →
         load w1 path = Ok f → save_error w1 path = None →
         config.stored w2 path "internal" "backoff_retries" = Some "0"
         ∧ config.stored w2 path "internal" "backoff_at" = Some "").
Proof.
  unfold blocks, gate_entry, WithBackoff.
  destruct (shouldBackoff _ _ _ _ _) as [b w0]. simpl.
  intros -> Hnext. rewrite Hnext.
  eexists. split; [reflexivity|]. split.
  - intros Hz. unfold IsZero. rewrite Hz. done.
  - intros Hnz path f Hp Hne Hl Hs.
    replace (IsZero (At cfg)) with false by (symmetry; by apply Z.eqb_neq).
    simpl.
    destruct (update_ok (V cfg) 0 0 w1 path f) as (w'' & Hu' & Hr & Ha);
      try done.
    rewrite Hu'. done.
Qed.

(** C8: when the settings cannot be written, the gate returns what the next
    handle returned (its results on success, its error on failure), the
    world is the one the next handle left plus log lines, the last of them
    a warning; and a run in any other world in which the next handle returns
    the same returns the same. *)
Theorem persistence_failure_swallowed cfg next hh w results err w1 :
  blocks Format oor cfg w = false →
  next hh (gate_entry Format oor cfg w) = ((results, err), w1) →
  persist_fails sys (V cfg) w1 = true →
  is_Some err ∨ At cfg ≠ 0 →
  (∃ msg,
     WithBackoff sys Format oor cfg next hh w =
     (match err with Some e => ([], Some e) | None => (results, None) end,
      log.Warnf msg
        (match err with
         | Some _ => log.Debugf "incrementing backoff due to error" w1
         | None => w1
         end)))
  ∧ (∀ wb,
       blocks Format oor cfg wb = false →
       fst (next hh (gate_entry Format oor cfg wb)) = (results, err) →
       fst (WithBackoff sys Format oor cfg next hh wb)
       = fst (WithBackoff sys Format oor cfg next hh w)).
Proof.
  intros Hb Hnext Hfail Hatt. split.
  - revert Hb Hnext. unfold blocks, gate_entry, WithBackoff.
    destruct (shouldBackoff _ _ _ _ _) as [b w0]. simpl.
    intros -> Hnext. rewrite Hnext.
    destruct err as [e|].
    + destruct (persist_fails_update (V cfg) (int_add (Retries cfg) 1)
                  (clock (log.Debugf "incrementing backoff due to error" w1))
                  (log.Debugf "incrementing backoff due to error" w1))
        as [ue Hu].
      { unfold log.Debugf. by rewrite persist_fails_emit. }
      rewrite Hu. by eexists.
    + destruct Hatt as [[? ?]|Hnz]; [done|].
      replace (IsZero (At cfg)) with false by (symmetry; by apply Z.eqb_neq).
      simpl.
      destruct (persist_fails_update (V cfg) 0 0 w1 Hfail) as [ue Hu].
      rewrite Hu. by eexists.
  - intros wb Hbb Hnb.
    rewrite !WithBackoff_value, Hb, Hbb, Hnb, Hnext. done.
Qed.


End Gate.

(** The scenarios of the specification: two retries, twenty seconds after
    the failure, the gate blocks; 3700 seconds after, it does not. *)
Example gate_blocks_after_20s :
  fst (shouldBackoff Format 0 2 (t0 - 20 * Second) (world_at t0)) = true.
Proof. reflexivity. Qed.

Example gate_open_after_3700s :
  fst (shouldBackoff Format 0 2 (t0 - 3700 * Second) (world_at t0)) = false.
Proof. reflexivity. Qed.

Lemma shouldBackoff_overflow_witness :
  fst (shouldBackoff (λ _ _, "") 0 30 t0 (world_at (t0 + 20 * Second))) = false
  ∧ spec_blocks 30 (Some t0) (t0 + 20 * Second) = true.
Proof.
  apply (shouldBackoff_overflow (λ _ _, "") 0 t0 (world_at (t0 + 20 * Second)));
    vm_compute; congruence.
Defined.

Lemma failing_delegate_increments_witness :
  let w := with_config false (world_at t0) in
  let w2 := snd (WithBackoff sys Format 0 healthy failing [] w) in
  config.stored w2 cfg_path "internal" "backoff_retries" = Some "1"
  ∧ config.stored w2 cfg_path "internal" "backoff_at"
    = Some (Format RFC3339 (t0 + 2 * Second)).
Proof.
  intros w w2.
  destruct (failing_delegate_increments sys Format 0 healthy failing [] w []
              "connection refused" (set_clock (t0 + 2 * Second) w)
              eq_refl eq_refl)
    as (w2' & Hw & Hst & _).
  subst w2. rewrite Hw. simpl.
  apply (Hst cfg_path ∅); [reflexivity|discriminate|reflexivity|reflexivity|].
  vm_compute. discriminate.
Defined.

Lemma successful_delegate_resets_witness :
  let w := with_config false (world_at t0) in
  let w2 := snd (WithBackoff sys Format 0 failing_streak succeeding [] w) in
  config.stored w2 cfg_path "internal" "backoff_retries" = Some "0"
  ∧ config.stored w2 cfg_path "internal" "backoff_at" = Some "".
Proof.
  intros w w2.
  destruct (successful_delegate_resets sys Format 0 failing_streak succeeding
              [] w [] w eq_refl eq_refl)
    as (w2' & Hw & _ & Hst).
  subst w2. rewrite Hw. simpl.
  apply (Hst ltac:(vm_compute; discriminate) cfg_path ∅);
    [reflexivity|discriminate|reflexivity|reflexivity].
Defined.

Lemma persistence_failure_swallowed_witness :
  let w := with_config true (world_at t0) in
  fst (WithBackoff sys Format 0 healthy failing [] w)
  = ([], Some "connection refused").
Proof.
  intros w.
  destruct (persistence_failure_swallowed sys Format 0 healthy failing [] w []
              (Some "connection refused") (set_clock (t0 + 2 * Second) w)
              eq_refl eq_refl eq_refl (or_introl (mk_is_Some _ _ eq_refl)))
    as [[msg Hw] _].
  rewrite Hw. reflexivity.
Defined.


End backoff_props.

(** ** The command supervisor *)

Module legacy_props.

Import legacy examples.

Section Supervisor.
Context {Viper : Type} (code : ExitCodes) (api : Api Viper).
Variable offlinesync_Run : cmdFn Viper.

Lemma sendDiagnostics_events v logs stk p :
  events (sendDiagnostics api v logs stk p) = events p ++ [Diagnostics logs stk].
Proof.
  unfold sendDiagnostics.
  destruct (legacyparams_Load api v true); [|done].
  destruct (NewClientWithoutAuth api a); [|done].
  by destruct (SendDiagnostics api _ _ _ _).
Qed.

(** What [runCmd] does, by the way the command ends. *)
Lemma runCmd_returned_ok v verbose cmd p exitCode w1 :
  cmd_run cmd v (capture (world p)) = (Returned exitCode None, w1) →
  runCmd code api v verbose cmd p
  = (Return exitCode, mkProcess w1 (events p ++ [Invoked (cmd_name cmd)])).
Proof.
  unfold runCmd, capture, buffer. simpl. intros ->. done.
Qed.

Lemma runCmd_returned_err v verbose cmd p exitCode e w1 :
  cmd_run cmd v (capture (world p)) = (Returned exitCode (Some e), w1) →
  let w2 := log.SetOutput (log_output (world p))
              (log.Errorf ("failed to run command: " +:+ e) w1) in
  let p2 := mkProcess w2 (events p ++ [Invoked (cmd_name cmd)]) in
  runCmd code api v verbose cmd p
  = (Return exitCode,
     if negb (exitCode =? ErrAuth code) && verbose
     then sendDiagnostics api v (log.contents (buffer (world p)) w2)
            (debug_Stack w2) p2
     else p2).
Proof.
  unfold runCmd, capture, buffer. simpl. intros ->. simpl.
  by destruct (negb (exitCode =? ErrAuth code) && verbose).
Qed.

Lemma runCmd_panicked v verbose cmd p value w1 :
  cmd_run cmd v (capture (world p)) = (Panicked value, w1) →
  let w2 := log.SetOutput (log_output (world p)) w1 in
  let p2 := mkProcess w2 (events p ++ [Invoked (cmd_name cmd)]) in
  runCmd code api v verbose cmd p
  = (Exit (ErrGeneric code),
     if negb verbose
     then sendDiagnostics api v (log.contents (buffer (world p)) w2)
            (debug_Stack w2) p2
     else p2).
Proof.
  unfold runCmd, capture, buffer. simpl. intros ->. simpl.
  by destruct verbose.
Qed.

Lemma runCmd_panicked_nil v verbose cmd p w1 :
  cmd_run cmd v (capture (world p)) = (PanickedNil, w1) →
  runCmd code api v verbose cmd p
  = (Return 0, mkProcess w1 (events p ++ [Invoked (cmd_name cmd)])).
Proof.
  unfold runCmd, capture, buffer. simpl. intros ->. done.
Qed.

Lemma sent_sendDiagnostics v logs stk p :
  sent (sendDiagnostics api v logs stk p) = sent p ++ [(logs, stk)].
Proof. unfold sent. rewrite sendDiagnostics_events. by rewrite omap_app. Qed.

Lemma invoked_sendDiagnostics v logs stk p :
  invoked (sendDiagnostics api v logs stk p) = invoked p.
Proof.
  unfold invoked. rewrite sendDiagnostics_events, omap_app. simpl.
  by rewrite app_nil_r.
Qed.

Lemma sent_invoke w p name :
  sent (mkProcess w (events p ++ [Invoked name])) = sent p.
Proof. unfold sent. simpl. rewrite omap_app. simpl. by rewrite app_nil_r. Qed.

Lemma invoked_invoke w p name :
  invoked (mkProcess w (events p ++ [Invoked name])) = invoked p ++ [name].
Proof. unfold invoked. simpl. by rewrite omap_app. Qed.

(** [runCmd] invokes the command it is given, once, and no other. *)
Lemma runCmd_invoked v verbose cmd p :
  invoked (snd (runCmd code api v verbose cmd p)) = invoked p ++ [cmd_name cmd].
Proof.
  destruct (cmd_run cmd v (capture (world p))) as [[exitCode [e|]|value|] w1] eqn:E.
  - rewrite (runCmd_returned_err _ _ _ _ _ _ _ E). simpl.
    destruct (negb (exitCode =? ErrAuth code) && verbose);
      rewrite ?invoked_sendDiagnostics; apply invoked_invoke.
  - rewrite (runCmd_returned_ok _ _ _ _ _ _ E). apply invoked_invoke.
  - rewrite (runCmd_panicked _ _ _ _ _ _ E). simpl.
    destruct (negb verbose);
      rewrite ?invoked_sendDiagnostics; apply invoked_invoke.
  - rewrite (runCmd_panicked_nil _ _ _ _ _ E). apply invoked_invoke.
Qed.

(** C4, on the code: when the command returns an error and verbose mode is
    off, [runCmd] logs the error, puts the log output back and returns the
    exit code; [sendDiagnostics] is not called, whatever the exit code,
    where the rule of the specification has the diagnostics uploaded. *)
Theorem error_not_verbose_sends_nothing v cmd p exitCode e w1 :
  let w := world p in
  let captured :=
    log.SetOutput (log.MultiWriter (log_output w) (WSink (length (sinks w))))
      (set_sinks (sinks w ++ [[]]) w) in
  cmd_run cmd v captured = (Returned exitCode (Some e), w1) →
  runCmd code api v false cmd p
  = (Return exitCode,
     mkProcess
       (log.SetOutput (log_output w)
          (log.Errorf ("failed to run command: " +:+ e) w1))
       (events p ++ [Invoked (cmd_name cmd)]))
  ∧ sent (snd (runCmd code api v false cmd p)) = sent p
  ∧ spec_uploads_on_error (ErrAuth code) exitCode false = true.
Proof.
  intros w captured E.
  rewrite (runCmd_returned_err v false cmd p exitCode e w1 E). simpl.
  rewrite andb_false_r. split; [done|]. split.
  - apply sent_invoke.
  - unfold spec_uploads_on_error. by rewrite andb_false_r.
Qed.

(** C5, on the code: a command that panics with nil is not caught as a
    panic: [recover] returns nil, the deferred function does nothing, and
    [runCmd] returns the exit code zero with the log output still captured
    and without calling [sendDiagnostics], verbose or not; [RunCmd] then
    ends the process with that code, where the claim has [ErrGeneric] and,
    verbose mode being off, an upload. *)
Theorem nil_panic_exits_with_zero v verbose cmd p w1 :
  let w := world p in
  let captured :=
    log.SetOutput (log.MultiWriter (log_output w) (WSink (length (sinks w))))
      (set_sinks (sinks w ++ [[]]) w) in
  cmd_run cmd v captured = (PanickedNil, w1) →
  runCmd code api v verbose cmd p
  = (Return 0, mkProcess w1 (events p ++ [Invoked (cmd_name cmd)]))
  ∧ RunCmd code api v verbose cmd p
    = (0, mkProcess w1 (events p ++ [Invoked (cmd_name cmd)]))
  ∧ sent (snd (RunCmd code api v verbose cmd p)) = sent p.
Proof.
  intros w captured E. unfold RunCmd.
  rewrite (runCmd_panicked_nil v verbose cmd p w1 E).
  split; [done|]. split; [done|]. apply sent_invoke.
Qed.

(** C6: [RunCmdWithOfflineSync] runs the offline sync exactly when the
    command returned the exit code [Success], and then ends the process as
    [RunCmd] of the offline sync does, with the code that command returns;
    otherwise it ends the process with the command's code (or with
    [ErrGeneric] after a panic) and the command is the only one invoked.
    After a panic with nil, [runCmd] reports the exit code zero, which is
    treated as a code the command returned. *)
Theorem offline_sync_iff_success v verbose cmd p completion w1 :
  cmd_run cmd v (capture (world p)) = (completion, w1) →
  let p1 := snd (runCmd code api v verbose cmd p) in
  let final := RunCmdWithOfflineSync code api offlinesync_Run v verbose cmd p in
  match completion with
  | Returned exitCode _ =>
      if exitCode =? Success code
      then final = RunCmd code api v verbose offlinesync_Run p1
           ∧ invoked (snd final)
             = invoked p ++ [cmd_name cmd; cmd_name offlinesync_Run]
           ∧ ∀ exitCode' err' w2,
               cmd_run offlinesync_Run v (capture (world p1))
               = (Returned exitCode' err', w2) →
               fst final = exitCode'
      else final = (exitCode, p1)
           ∧ invoked (snd final) = invoked p ++ [cmd_name cmd]
  | Panicked _ =>
      final = (ErrGeneric code, p1)
      ∧ invoked (snd final) = invoked p ++ [cmd_name cmd]
  | PanickedNil =>
      if 0 =? Success code
      then final = RunCmd code api v verbose offlinesync_Run p1
           ∧ invoked (snd final)
             = invoked p ++ [cmd_name cmd; cmd_name offlinesync_Run]
           ∧ ∀ exitCode' err' w2,
               cmd_run offlinesync_Run v (capture (world p1))
               = (Returned exitCode' err', w2) →
               fst final = exitCode'
      else final = (0, p1)
           ∧ invoked (snd final) = invoked p ++ [cmd_name cmd]
  end.
Proof.
  intros E p1 final.
  pose proof (runCmd_invoked v verbose cmd p) as Hinv. fold p1 in Hinv.
  assert (Hfst : fst (runCmd code api v verbose cmd p) =
                 match completion with
                 | Returned exitCode _ => Return exitCode
                 | Panicked _ => Exit (ErrGeneric code)
                 | PanickedNil => Return 0
                 end).
  { destruct completion as [exitCode [e|]|value|].
    - by rewrite (runCmd_returned_err _ _ _ _ _ _ _ E).
    - by rewrite (runCmd_returned_ok _ _ _ _ _ _ E).
    - by rewrite (runCmd_panicked _ _ _ _ _ _ E).
    - by rewrite (runCmd_panicked_nil _ _ _ _ _ E). }
  subst final. unfold RunCmdWithOfflineSync.
  destruct (runCmd code api v verbose cmd p) as [c1 p1'] eqn:R.
  simpl in Hfst, p1. subst p1 c1.
  assert (Hret : ∀ exitCode,
    let final :=
      if negb (exitCode =? Success code) then (exitCode, p1')
      else
        match runCmd code api v verbose offlinesync_Run p1' with
        | (Return exitCode', p) => (exitCode', p)
        | (Exit c, p) => (c, p)
        end in
    if exitCode =? Success code
    then final = RunCmd code api v verbose offlinesync_Run p1'
         ∧ invoked (snd final)
           = invoked p ++ [cmd_name cmd; cmd_name offlinesync_Run]
         ∧ ∀ exitCode' err' w2,
             cmd_run offlinesync_Run v (capture (world p1'))
             = (Returned exitCode' err', w2) →
             fst final = exitCode'
    else final = (exitCode, p1')
         ∧ invoked (snd final) = invoked p ++ [cmd_name cmd]).
  { intros exitCode.
    destruct (exitCode =? Success code) eqn:Es; simpl; [|done].
    unfold RunCmd.
    pose proof (runCmd_invoked v verbose offlinesync_Run p1') as Hinv2.
    split; [by destruct (runCmd code api v verbose offlinesync_Run p1') as [[?|?] ?]|].
    split.
    - replace (snd (match runCmd code api v verbose offlinesync_Run p1' with
                    | (Return exitCode', p0) => (exitCode', p0)
                    | (Exit c, p0) => (c, p0)
                    end))
        with (snd (runCmd code api v verbose offlinesync_Run p1'))
        by (by destruct (runCmd code api v verbose offlinesync_Run p1') as [[?|?] ?]).
      rewrite Hinv2, Hinv, <- app_assoc. done.
    - intros exitCode' err' w2 E2.
      destruct err' as [e'|].
      + by rewrite (runCmd_returned_err _ _ _ _ _ _ _ E2).
      + by rewrite (runCmd_returned_ok _ _ _ _ _ _ E2). }
  destruct completion as [exitCode err|value|].
  - apply Hret.
  - done.
  - apply (Hret 0).
Qed.

(** C9, on the code: when the command returns without an error, [runCmd]
    returns its exit code and does nothing else; if the command left the
    log output alone, the logger still writes to the original output and to
    the buffer, and the original output is not back in place. *)
Theorem success_leaves_log_captured v verbose cmd p exitCode w1 :
  cmd_run cmd v (capture (world p)) = (Returned exitCode None, w1) →
  log_output w1 = log_output (capture (world p)) →
  let p' := snd (runCmd code api v verbose cmd p) in
  fst (runCmd code api v verbose cmd p) = Return exitCode
  ∧ log_output (world p')
    = log.MultiWriter (log_output (world p)) (buffer (world p))
  ∧ log_output (world p') ≠ log_output (world p).
Proof.
  intros E Hout. rewrite (runCmd_returned_ok _ _ _ _ _ _ E). simpl.
  split; [done|]. rewrite Hout.
  assert (Hc : log_output (capture (world p))
               = log.MultiWriter (log_output (world p)) (buffer (world p)))
    by done.
  rewrite Hc. split; [done|].
  unfold log.MultiWriter, buffer. simpl.
  destruct (log_output (world p)) as [n|ns]; [done|].
  simpl. intros [= H].
  apply (f_equal length) in H. rewrite length_app in H. simpl in H. lia.
Qed.

(** On the two other paths the original output is put back before
    anything else is done. *)
Lemma error_restores_log v cmd p exitCode e w1 :
  cmd_run cmd v (capture (world p)) = (Returned exitCode (Some e), w1) →
  log_output (world (snd (runCmd code api v false cmd p)))
  = log_output (world p).
Proof.
  intros E. rewrite (runCmd_returned_err _ _ _ _ _ _ _ E). simpl.
  by rewrite andb_false_r.
Qed.

Lemma panic_restores_log v cmd p value w1 :
  cmd_run cmd v (capture (world p)) = (Panicked value, w1) →
  log_output (world (snd (runCmd code api v true cmd p)))
  = log_output (world p).
Proof. intros E. by rewrite (runCmd_panicked _ _ _ _ _ _ E). Qed.

End Supervisor.

Lemma error_not_verbose_sends_nothing_witness :
  runCmd codes api tt false cmd_fail start
  = (Return 1,
     mkProcess
       (log.SetOutput (WSink 0)
          (log.Errorf "failed to run command: boom"
             (log.Warnf "about to fail" (capture (world start)))))
       [Invoked "heartbeatcmd.Run"])
  ∧ spec_uploads_on_error (ErrAuth codes) 1 false = true.
Proof.
  destruct (error_not_verbose_sends_nothing codes api tt cmd_fail start 1
              "boom" (log.Warnf "about to fail" (capture (world start)))
              eq_refl)
    as (Hrun & _ & Hspec).
  split; [exact Hrun|exact Hspec].
Defined.

(** With verbose mode on, an authentication error sends nothing and any
    other error sends the diagnostics. *)
Example auth_error_verbose_sends_nothing :
  sent (snd (runCmd codes api tt true cmd_auth start)) = [].
Proof. reflexivity. Qed.

Example success_sends_nothing :
  runCmd codes api tt false cmd_ok start
  = (Return 0,
     mkProcess (capture (world start)) [Invoked "today.Run"]).
Proof. reflexivity. Qed.

Lemma nil_panic_exits_with_zero_witness :
  RunCmd codes api tt false examples_extra.cmd_panic_nil start
  = (0, mkProcess (capture (world start)) [Invoked "todaygoal.Run"])
  ∧ ErrGeneric codes = 1.
Proof.
  destruct (nil_panic_exits_with_zero codes api tt false
              examples_extra.cmd_panic_nil start (capture (world start))
              eq_refl)
    as (_ & Hrun & _).
  split; [exact Hrun|reflexivity].
Defined.

Lemma offline_sync_iff_success_witness :
  invoked (snd (RunCmdWithOfflineSync codes api offlinesync_Run tt false
                  cmd_ok start))
  = ["today.Run"; "offlinesync.Run"].
Proof.
  destruct (offline_sync_iff_success codes api offlinesync_Run tt false cmd_ok
              start (Returned 0 None) (capture (world start)) eq_refl)
    as (_ & Hinv & _).
  exact Hinv.
Defined.

Lemma success_leaves_log_captured_witness :
  log_output (world (snd (runCmd codes api tt false cmd_ok start)))
  = WMulti [0; 1]%nat.
Proof.
  destruct (success_leaves_log_captured codes api tt false cmd_ok start 0
              (capture (world start)) eq_refl eq_refl)
    as (_ & Hout & _).
  exact Hout.
Defined.

End legacy_props.

(** ** The offline fallback *)

Module offline_props.

Import chain offline examples.

Lemma setLogFields_queue params w : queue (setLogFields params w) = queue w.
Proof.
  unfold setLogFields.
  destruct (negb _), (paramscmd.LineNumber _), (paramscmd.IsWrite _); done.
Qed.

Lemma setLogFields_load params w : load (setLogFields params w) = load w.
Proof.
  unfold setLogFields.
  destruct (negb _), (paramscmd.LineNumber _), (paramscmd.IsWrite _); done.
Qed.

Section Offline.
Context {Viper : Type} (d : Deps Viper).

Lemma loadParams_queue v b w : queue (snd (loadParams d v b w)) = queue w.
Proof.
  unfold loadParams.
  destruct (LoadAPIParams d v) as [pa [e1|]],
           (LoadOfflineParams d v) as [po [e2|]],
           b, (LoadHeartbeatParams d v) as [ph [e3|]];
    simpl; unfold log.Warnf; by rewrite ?log_props.emit_queue.
Qed.

Lemma loadParams_load v b w : load (snd (loadParams d v b w)) = load w.
Proof.
  unfold loadParams.
  destruct (LoadAPIParams d v) as [pa [e1|]],
           (LoadOfflineParams d v) as [po [e2|]],
           b, (LoadHeartbeatParams d v) as [ph [e3|]];
    simpl; unfold log.Warnf; by rewrite ?log_props.emit_load.
Qed.

Lemma loadParams_Offline v b w params :
  fst (loadParams d v b w) = Ok params →
  paramscmd.Offline params = fst (LoadOfflineParams d v).
Proof.
  unfold loadParams.
  destruct (LoadAPIParams d v) as [pa e1], (LoadOfflineParams d v) as [po e2],
           b, (LoadHeartbeatParams d v) as [ph [e3|]];
    simpl; intros [= <-]; done.
Qed.

(** C7: with offline persistence disabled in the parameters that were
    loaded, [SaveHeartbeats] returns an error, the offline queue and the
    disk are as before, and neither the queue nor any stage or sender has a
    say in the outcome: other ones give the same result. *)
Theorem disabled_returns_error v heartbeats queueFilepath w :
  paramscmd.Disabled (fst (LoadOfflineParams d v)) = true →
  (∃ e w',
     SaveHeartbeats d v heartbeats queueFilepath w = (Some e, w')
     ∧ queue w' = queue w ∧ load w' = load w)
  ∧ ∀ d' : Deps Viper,
      LoadAPIParams d' v = LoadAPIParams d v →
      LoadOfflineParams d' v = LoadOfflineParams d v →
      LoadHeartbeatParams d' v = LoadHeartbeatParams d v →
      Params_String d' = Params_String d →
      SaveHeartbeats d' v heartbeats queueFilepath w
      = SaveHeartbeats d v heartbeats queueFilepath w.
Proof.
  intros Hd. split.
  - unfold SaveHeartbeats.
    pose proof (loadParams_queue v (bool_decide (heartbeats = None)) w) as Hq.
    pose proof (loadParams_load v (bool_decide (heartbeats = None)) w) as Hl.
    pose proof (loadParams_Offline v (bool_decide (heartbeats = None)) w) as Ho.
    destruct (loadParams d v _ w) as [[params|err] w1]; simpl in *.
    + rewrite (Ho params eq_refl), Hd.
      eexists _, _. split; [reflexivity|].
      unfold log.Debugf.
      rewrite log_props.emit_queue, log_props.emit_load,
        setLogFields_queue, setLogFields_load. done.
    + by eexists _, _.
  - intros d' Ha Ho Hh Hs.
    assert (Hlp : loadParams d' v (bool_decide (heartbeats = None)) w
                  = loadParams d v (bool_decide (heartbeats = None)) w)
      by (unfold loadParams; by rewrite Ha, Ho, Hh).
    unfold SaveHeartbeats. rewrite Hlp, Hs.
    pose proof (loadParams_Offline v (bool_decide (heartbeats = None)) w) as Hoff.
    destruct (loadParams d v _ w) as [[params|err] w1]; simpl in *; [|done].
    by rewrite (Hoff params eq_refl), Hd.
Qed.

(** C10: once the parameters are loaded, offline persistence is not
    disabled and the queue option is initialised, [SaveHeartbeats] returns
    nil, whatever the stages, the queue and the sender do and return. *)
Theorem enabled_returns_nil v heartbeats queueFilepath w params w1 opt w2 :
  loadParams d v (bool_decide (heartbeats = None)) w = (Ok params, w1) →
  paramscmd.Disabled (paramscmd.Offline params) = false →
  let w0 :=
    log.Debugf ("params: " +:+ Params_String d params) (setLogFields params w1) in
  offline_WithQueue d
    (if negb (config.is_empty (paramscmd.QueueFile (paramscmd.Offline params)))
     then paramscmd.QueueFile (paramscmd.Offline params)
     else queueFilepath)
    (snd match heartbeats with
         | None => buildHeartbeats d params w0
         | Some hh => (hh, w0)
         end)
  = (Ok opt, w2) →
  fst (SaveHeartbeats d v heartbeats queueFilepath w) = None.
Proof.
  intros Hl Hd w0 Hq. unfold SaveHeartbeats. rewrite Hl, Hd. fold w0.
  destruct (match heartbeats with
            | None => buildHeartbeats d params w0
            | Some hh => (hh, w0)
            end) as [hs w3].
  simpl in Hq. rewrite Hq.
  by destruct (NewHandle _ _ _ _).
Qed.

End Offline.

(** With persistence enabled the batch reaches the queue file, even though
    the queue stage reports an error. *)
Example enabled_enqueues :
  queue (snd (SaveHeartbeats (deps false) tt (Some [main_go]) "/q.bdb"
                (world_at t0))) !! "/q.bdb"
  = Some [main_go].
Proof. reflexivity. Qed.

Lemma disabled_returns_error_witness :
  ∃ e w',
    SaveHeartbeats (deps true) tt (Some [main_go]) "/q.bdb" (world_at t0)
    = (Some e, w')
    ∧ queue w' = ∅.
Proof.
  destruct (disabled_returns_error (deps true) tt (Some [main_go])
              "/q.bdb" (world_at t0) eq_refl)
    as [(e & w' & Hrun & Hq & _) _].
  exists e, w'. split; [exact Hrun|exact Hq].
Defined.

Lemma enabled_returns_nil_witness :
  fst (SaveHeartbeats (deps false) tt (Some [main_go]) "/q.bdb"
         (world_at t0)) = None.
Proof.
  eapply (enabled_returns_nil (deps false) tt (Some [main_go])
            "/q.bdb" (world_at t0)); reflexivity.
Defined.

End offline_props.

(** ** More on package config *)

Module config_extra.

Import config.

Section Paths.
Context {Viper : Type} (sys : Os Viper).

(** X3: [WakaHomeDir] fails exactly when all three sources fail: the
    variable WAKATIME_HOME is unset, empty or cannot be expanded; the
    home directory of [os] is an error or empty; and the one of the user
    database is an error or empty. *)
Theorem WakaHomeDir_fails_iff :
  (∃ e, WakaHomeDir sys = Err e)
  ↔ match os_LookupEnv sys "WAKATIME_HOME" with
    | Some home => home = "" ∨ ∃ e, homedir_Expand sys home = Err e
    | None => True
    end
    ∧ (is_Some (snd (os_UserHomeDir sys)) ∨ fst (os_UserHomeDir sys) = "")
    ∧ match user_LookupId_HomeDir sys with
      | Ok home => home = ""
      | Err _ => True
      end.
Proof.
  unfold WakaHomeDir.
  destruct (os_UserHomeDir sys) as [home err]. simpl.
  assert (Hfb :
    (∃ e,
       (if bool_decide (err = None) && negb (is_empty home) then Ok home
        else match user_LookupId_HomeDir sys with
             | Ok uhome =>
                 if negb (is_empty uhome) then Ok uhome
                 else Err (fmt_s_error err +:+ ": " +:+ fmt_s_error None)
             | Err err' =>
                 Err (fmt_s_error err +:+ ": " +:+ fmt_s_error (Some err'))
             end) = Err e)
    ↔ (is_Some err ∨ home = "")
      ∧ match user_LookupId_HomeDir sys with
        | Ok uhome => uhome = ""
        | Err _ => True
        end).
  { destruct err as [e0|]; simpl.
    - destruct (user_LookupId_HomeDir sys) as [uhome|e1].
      + destruct (is_empty uhome) eqn:E; simpl.
        * apply String.eqb_eq in E. split; [eauto|]. intros _. eauto.
        * apply String.eqb_neq in E. split; [by intros [? ?]|]. by intros [_ ?].
      + split; eauto.
    - destruct (is_empty home) eqn:Eh; simpl.
      + apply String.eqb_eq in Eh.
        destruct (user_LookupId_HomeDir sys) as [uhome|e1].
        * destruct (is_empty uhome) eqn:E; simpl.
          -- apply String.eqb_eq in E. split; eauto.
          -- apply String.eqb_neq in E.
             split; [by intros [? ?]|]. by intros [_ ?].
        * split; eauto.
      + apply String.eqb_neq in Eh. split; [by intros [? ?]|].
        intros [[[? ?]|?] _]; done. }
  destruct (os_LookupEnv sys "WAKATIME_HOME") as [h|].
  - destruct (is_empty h) eqn:E; simpl.
    + apply String.eqb_eq in E. rewrite Hfb. tauto.
    + apply String.eqb_neq in E.
      destruct (homedir_Expand sys h) as [h'|e'].
      * split; [by intros [? ?]|]. intros [[?|[? ?]] _]; done.
      * rewrite Hfb. split; [|tauto]. intros H. split; [eauto|done].
  - rewrite Hfb. tauto.
Qed.


End Paths.


End config_extra.

(** ** More on the backoff gate *)

Module backoff_extra.

Import time chain backoff.

Section Gate.
Context {Viper : Type} (sys : config.Os Viper).
Variable Format : string → Time → string.
Variable oor : Z.

Lemma shouldBackoff_snd retries at_ w :
  ∃ lines, snd (shouldBackoff Format oor retries at_ w)
           = foldl (λ w msg, log.emit DebugLevel msg w) w lines.
Proof.
  unfold shouldBackoff.
  destruct ((retries <? 1) || IsZero at_).
  - by exists [].
  - by eexists [_].
Qed.

(** X5: a gate that blocks does not call the next handle: whatever that
    handle is, the result is the backoff error with no results, and the
    clock, the files and the offline queue are as before. *)
Theorem blocked_skips_delegate cfg (next next' : Handle) hh w :
  blocks Format oor cfg w = true →
  WithBackoff sys Format oor cfg next hh w
  = WithBackoff sys Format oor cfg next' hh w
  ∧ fst (WithBackoff sys Format oor cfg next hh w) = ([], Some errBackoff)
  ∧ clock (snd (WithBackoff sys Format oor cfg next hh w)) = clock w
  ∧ load (snd (WithBackoff sys Format oor cfg next hh w)) = load w
  ∧ queue (snd (WithBackoff sys Format oor cfg next hh w)) = queue w.
Proof.
  unfold blocks, WithBackoff.
  destruct (shouldBackoff_snd (Retries cfg) (At cfg)
              (log.Debugln "execute heartbeat backoff algorithm" w))
    as [lines Hs].
  destruct (shouldBackoff _ _ _ _ _) as [b w0]. simpl in *.
  intros ->. subst w0. repeat split.
  - induction lines as [|l lines IH] using rev_ind; simpl.
    + apply log_props.emit_clock.
    + by rewrite foldl_app; simpl; rewrite log_props.emit_clock.
  - induction lines as [|l lines IH] using rev_ind; simpl.
    + apply log_props.emit_load.
    + by rewrite foldl_app; simpl; rewrite log_props.emit_load.
  - induction lines as [|l lines IH] using rev_ind; simpl.
    + apply log_props.emit_queue.
    + by rewrite foldl_app; simpl; rewrite log_props.emit_queue.
Qed.

(** X6: up to 29 retries the gate blocks exactly while the clock is before
    [At] plus the smaller of [15 * 2^retries] seconds and one hour, [At]
    being set. *)
Theorem backoff_window retries at_ w :
  1 <= retries <= 29 →
  fst (shouldBackoff Format oor retries at_ w) = true
  ↔ at_ ≠ 0 ∧ clock w < at_ + Z.min (15 * 2 ^ retries) 3600 * Second.
Proof.
  intros Hr. rewrite backoff_props.shouldBackoff_fst.
  rewrite backoff_props.backoffDuration_small by done.
  unfold IsZero, Before, Add, resetAfter, Second.
  replace (retries <? 1) with false by (symmetry; apply Z.ltb_ge; lia).
  simpl. rewrite !andb_true_iff, negb_true_iff, Z.eqb_neq, !Z.ltb_lt.
  lia.
Qed.

(** X7: within that range more retries never shorten the backoff, and an
    earlier instant is blocked whenever a later one is. *)
Theorem backoff_monotone retries retries' at_ w w' :
  1 <= retries → retries <= retries' → retries' <= 29 →
  clock w' <= clock w →
  fst (shouldBackoff Format oor retries at_ w) = true →
  fst (shouldBackoff Format oor retries' at_ w') = true.
Proof.
  intros H1 H2 H3 Hc.
  rewrite !backoff_window by lia.
  intros [Hz Hlt]. split; [done|].
  assert (2 ^ retries <= 2 ^ retries') by (apply Z.pow_le_mono_r; lia).
  unfold Second in *. lia.
Qed.


(** X9: [updateBackoffSettings] reports that the config file could not be
    parsed exactly when its path cannot be determined or the file at it
    cannot be loaded; nothing is written then, whatever the retries and the
    time: the world is as it was.  Every other error it returns is a failure
    to write. *)
Theorem update_unreadable_config v retries at_ w :
  let unreadable :=
    match config.FilePath sys v with
    | Err _ => True
    | Ok path => ∃ e, load w path = Err e
    end in
  let result := updateBackoffSettings sys Format v retries at_ w in
  (unreadable
   ↔ ∃ e, fst result = Some ("failed to parse config file: " +:+ e))
  ∧ (unreadable →
     snd result = w
     ∧ ∀ retries' at', updateBackoffSettings sys Format v retries' at' w = result)
  ∧ (∀ ue, fst result = Some ue →
       (∃ e, ue = "failed to parse config file: error getting filepath: " +:+ e)
       ∨ (∃ e, ue = "failed to parse config file: error loading config file: " +:+ e)
       ∨ (∃ e, ue = "failed to write to config file: " +:+ e)).
Proof.
  simpl. unfold updateBackoffSettings, config.NewIniWriter.
  destruct (config.FilePath sys v) as [path|e].
  - destruct (load w path) as [f|e] eqn:Hl.
    + set (kv := if negb (IsZero at_) then _ else _).
      destruct (config.Write _ "internal" kv w) as [[e|] w1] eqn:Hw; simpl.
      * split; [|split].
        -- split; [by intros [? ?]|]. intros [e' He']. cbv [String.append] in He'. congruence.
        -- by intros [? ?].
        -- intros ue [= <-]. eauto.
      * split; [|split].
        -- split; [by intros [? ?]|]. by intros [? ?].
        -- by intros [? ?].
        -- done.
    + simpl. split; [|split].
      * split; eauto.
      * done.
      * intros ue [= <-]. right. left. eauto.
  - simpl. split; [|split].
    + split; eauto.
    + done.
    + intros ue [= <-]. left. eauto.
Qed.

End Gate.

Lemma blocked_skips_delegate_witness :
  WithBackoff examples.sys examples.Format 0 examples_extra.recent_streak
    examples.failing [] (examples.world_at examples.t0)
  = WithBackoff examples.sys examples.Format 0 examples_extra.recent_streak
      examples.succeeding [] (examples.world_at examples.t0).
Proof.
  apply (blocked_skips_delegate examples.sys examples.Format 0
           examples_extra.recent_streak examples.failing examples.succeeding
           [] (examples.world_at examples.t0)).
  reflexivity.
Defined.

Lemma backoff_window_witness :
  fst (shouldBackoff examples.Format 0 2 (examples.t0 - 20 * Second)
         (examples.world_at examples.t0)) = true
  ↔ examples.t0 - 20 * Second ≠ 0
    ∧ clock (examples.world_at examples.t0)
      < examples.t0 - 20 * Second + Z.min (15 * 2 ^ 2) 3600 * Second.
Proof.
  apply (backoff_window examples.Format 0 2 (examples.t0 - 20 * Second)
           (examples.world_at examples.t0)).
  lia.
Defined.

Lemma backoff_monotone_witness :
  fst (shouldBackoff examples.Format 0 5 (examples.t0 - 20 * Second)
         (examples.world_at (examples.t0 - Second))) = true.
Proof.
  apply (backoff_monotone examples.Format 0 2 5 (examples.t0 - 20 * Second)
           (examples.world_at examples.t0)
           (examples.world_at (examples.t0 - Second)));
    first [reflexivity | lia | (vm_compute; discriminate)].
Defined.


Lemma update_unreadable_config_witness :
  updateBackoffSettings examples.sys examples.Format tt 3 examples.t0
    (examples.world_at examples.t0)
  = (Some "failed to parse config file: error loading config file: no such file",
     examples.world_at examples.t0).
Proof.
  destruct (update_unreadable_config examples.sys examples.Format tt 3
              examples.t0 (examples.world_at examples.t0)) as (_ & H & _).
  destruct (H (ex_intro _ "no such file" eq_refl)) as [Hw _].
  rewrite <- Hw at 2. reflexivity.
Defined.

End backoff_extra.

(** ** More on the command supervisor *)

Module legacy_extra.

Import legacy.


Lemma foldl_write_sink_length line ts s :
  length (foldl (log.write_sink line) s ts) = length s.
Proof.
  revert s. induction ts as [|t ts IH]; intros s; simpl; [done|].
  rewrite IH. unfold log.write_sink. by rewrite length_alter.
Qed.

Lemma foldl_write_sink_other line ts s (n : nat) :
  n ∉ ts → foldl (log.write_sink line) s ts !! n = s !! n.
Proof.
  revert s. induction ts as [|t ts IH]; intros s Hn; simpl; [done|].
  rewrite IH by set_solver.
  unfold log.write_sink. rewrite list_lookup_alter_ne; [done|set_solver].
Qed.

Lemma emit_length l msg w : length (sinks (log.emit l msg w)) = length (sinks w).
Proof.
  unfold log.emit. destruct (log.enabled l w); [|done]. simpl.
  apply foldl_write_sink_length.
Qed.

Lemma emit_log_verbose l msg w : log_verbose (log.emit l msg w) = log_verbose w.
Proof. unfold log.emit. by destruct (log.enabled l w). Qed.

Lemma emit_enabled l' l msg w :
  log.enabled l' (log.emit l msg w) = log.enabled l' w.
Proof. destruct l'; simpl; [apply emit_log_verbose|done|done]. Qed.

Lemma emit_buffer l msg w ts (n0 : nat) :
  log_output w = WMulti (ts ++ [n0]) →
  (n0 < length (sinks w))%nat →
  n0 ∉ ts →
  default [] (sinks (log.emit l msg w) !! n0)
  = default [] (sinks w !! n0) ++ (if log.enabled l w then [(l, msg)] else []).
Proof.
  intros Ho Hlt Hn. unfold log.emit.
  destruct (log.enabled l w); [|by rewrite app_nil_r].
  simpl. rewrite Ho. simpl. rewrite foldl_app. simpl.
  unfold log.write_sink at 1. rewrite list_lookup_alter_eq.
  rewrite foldl_write_sink_other by done.
  destruct (sinks w !! n0) eqn:E; [done|].
  apply lookup_ge_None in E. lia.
Qed.

Lemma logging_buffer w0 ts (n0 : nat) lines :
  ∀ w,
    log_output w = WMulti (ts ++ [n0]) →
    (∀ l, log.enabled l w = log.enabled l w0) →
    (n0 < length (sinks w))%nat →
    n0 ∉ ts →
    default [] (sinks (logging lines w) !! n0)
    = default [] (sinks w !! n0)
      ++ filter (λ line, log.enabled (fst line) w0 = true) lines.
Proof.
  induction lines as [|[l msg] lines IH]; intros w Ho He Hlt Hn.
  { by rewrite filter_nil, app_nil_r. }
  change (logging ((l, msg) :: lines) w)
    with (logging lines (log.emit l msg w)).
  rewrite IH; try done.
  - pose proof (emit_buffer l msg w ts n0 Ho Hlt Hn) as Hb.
    unfold LogLine in *. rewrite Hb.
    rewrite filter_cons. simpl. rewrite <- He.
    destruct (log.enabled l w).
    + rewrite decide_True by done. by rewrite <- app_assoc.
    + rewrite decide_False by done. by rewrite app_nil_r.
  - by rewrite log_props.emit_log_output.
  - intros l'. by rewrite emit_enabled.
  - by rewrite emit_length.
Qed.

(** X11: while the log is captured, the buffer of [runCmd] receives exactly
    the lines that are logged and whose level is on, in order, and nothing
    that was logged before. *)
Theorem buffer_holds_lines_since_capture lines w :
  Forall (λ n, (n < length (sinks w))%nat) (log.targets (log_output w)) →
  log.contents (buffer w) (logging lines (capture w))
  = filter (λ line, log.enabled (fst line) w = true) lines.
Proof.
  intros Hts. unfold buffer. simpl.
  assert (Hn : length (sinks w) ∉ log.targets (log_output w)).
  { intros Hin. rewrite Forall_forall in Hts. apply Hts in Hin. lia. }
  assert (Hlt : (length (sinks w) < length (sinks (capture w)))%nat).
  { simpl. rewrite length_app. simpl. lia. }
  rewrite (logging_buffer w (log.targets (log_output w)) (length (sinks w))
             lines (capture w) eq_refl (λ l, eq_refl) Hlt Hn).
  simpl. rewrite lookup_app_r by lia. by rewrite Nat.sub_diag.
Qed.

Section Supervisor.
Context {Viper : Type} (code : ExitCodes) (api : Api Viper).

(** X12: [RunCmd] ends the process with the exit code the command returns,
    whether or not it also returns an error and whatever the verbosity;
    with [ErrGeneric] when the command panics with a value; and with the
    code zero when it panics with nil. *)
Theorem RunCmd_exit_code v verbose cmd p completion w1 :
  cmd_run cmd v (capture (world p)) = (completion, w1) →
  fst (RunCmd code api v verbose cmd p)
  = match completion with
    | Returned exitCode _ => exitCode
    | Panicked _ => ErrGeneric code
    | PanickedNil => 0
    end.
Proof.
  intros E. unfold RunCmd. destruct completion as [exitCode [e|]|value|].
  - by rewrite (legacy_props.runCmd_returned_err _ _ _ _ _ _ _ _ _ E).
  - by rewrite (legacy_props.runCmd_returned_ok _ _ _ _ _ _ _ _ E).
  - by rewrite (legacy_props.runCmd_panicked _ _ _ _ _ _ _ _ E).
  - by rewrite (legacy_props.runCmd_panicked_nil _ _ _ _ _ _ _ E).
Qed.

End Supervisor.

Lemma buffer_holds_lines_since_capture_witness :
  log.contents (buffer (examples.world_at examples.t0))
    (logging examples_extra.three_lines
       (capture (examples.world_at examples.t0)))
  = [(WarnLevel, "a"); (ErrorLevel, "c")].
Proof.
  rewrite (buffer_holds_lines_since_capture examples_extra.three_lines
             (examples.world_at examples.t0)).
  - reflexivity.
  - constructor; [simpl; lia|constructor].
Defined.

Lemma RunCmd_exit_code_witness :
  fst (RunCmd examples.codes examples.api tt true examples.cmd_fail
         examples.start) = 1.
Proof.
  exact (RunCmd_exit_code examples.codes examples.api tt true
           examples.cmd_fail examples.start _ _ eq_refl).
Defined.

End legacy_extra.

(** ** More on the offline fallback *)

Module offline_extra.

Import chain offline offline_deps.

Section Offline.
Context {Viper : Type} (d : Deps Viper).

(** X13: [loadParams] fails only when it is asked for the heartbeat
    parameters and they cannot be loaded; errors of the API and offline
    loaders never make it fail, and what those loaders returned next to
    their error is what the parameters hold. *)
Theorem loadParams_fails_iff v shouldLoad w :
  ((∃ e, fst (loadParams d v shouldLoad w) = Err e)
   ↔ shouldLoad = true ∧ is_Some (snd (LoadHeartbeatParams d v)))
  ∧ ∀ params,
      fst (loadParams d v shouldLoad w) = Ok params →
      paramscmd.API params = fst (LoadAPIParams d v)
      ∧ paramscmd.Offline params = fst (LoadOfflineParams d v)
      ∧ paramscmd.Heartbeat params
        = if shouldLoad then fst (LoadHeartbeatParams d v)
          else paramscmd.zeroHeartbeat.
Proof.
  unfold loadParams.
  destruct (LoadAPIParams d v) as [pa e1], (LoadOfflineParams d v) as [po e2].
  destruct shouldLoad; simpl.
  - destruct (LoadHeartbeatParams d v) as [ph [e3|]]; simpl.
    + split; [split; eauto|]. done.
    + split.
      * split; [by intros [? ?]|]. by intros [_ [? ?]].
      * by intros params [= <-].
  - split.
    + split; [by intros [? ?]|]. by intros [? _].
    + by intros params [= <-].
Qed.


(** X16: when a batch is passed in, the heartbeat parameters are not
    loaded: whatever their loader would return, error included, the outcome
    is the same, and the stages are set up from the zero parameters. *)
Theorem given_batch_ignores_heartbeat_params v hh q w f :
  SaveHeartbeats (with_LoadHeartbeatParams f d) v (Some hh) q w
  = SaveHeartbeats d v (Some hh) q w
  ∧ ∀ params,
      fst (loadParams d v false w) = Ok params →
      paramscmd.Heartbeat params = paramscmd.zeroHeartbeat.
Proof.
  split.
  - unfold SaveHeartbeats, loadParams. simpl.
    destruct (LoadAPIParams d v) as [pa e1], (LoadOfflineParams d v) as [po e2].
    done.
  - intros params Hp.
    by destruct (proj2 (loadParams_fails_iff v false w) params Hp) as (_ & _ & ?).
Qed.

(** X17: [SaveHeartbeats] returns nil exactly when the parameters load,
    offline persistence is not disabled and the queue option initialises;
    in every other case it returns an error. *)
Theorem SaveHeartbeats_nil_iff v heartbeats queueFilepath w :
  fst (SaveHeartbeats d v heartbeats queueFilepath w) = None
  ↔ ∃ params w1 opt w2,
      loadParams d v (bool_decide (heartbeats = None)) w = (Ok params, w1)
      ∧ paramscmd.Disabled (paramscmd.Offline params) = false
      ∧ offline_WithQueue d
          (if negb (config.is_empty
                      (paramscmd.QueueFile (paramscmd.Offline params)))
           then paramscmd.QueueFile (paramscmd.Offline params)
           else queueFilepath)
          (snd match heartbeats with
               | None =>
                   buildHeartbeats d params
                     (log.Debugf ("params: " +:+ Params_String d params)
                        (setLogFields params w1))
               | Some hh =>
                   (hh, log.Debugf ("params: " +:+ Params_String d params)
                          (setLogFields params w1))
               end)
        = (Ok opt, w2).
Proof.
  split.
  - unfold SaveHeartbeats.
    destruct (loadParams d v _ w) as [[params|err] w1]; [|done].
    destruct (paramscmd.Disabled (paramscmd.Offline params)) eqn:Hd; [done|].
    destruct (match heartbeats with
              | None => buildHeartbeats d params _
              | Some hh => (hh, _)
              end) as [hs w3] eqn:Hb.
    destruct (offline_WithQueue d _ _) as [[opt|err] w2] eqn:Hq; [|done].
    intros _. exists params, w1, opt, w2. by rewrite Hb.
  - intros (params & w1 & opt & w2 & Hl & Hd & Hq).
    unfold SaveHeartbeats. rewrite Hl, Hd.
    destruct (match heartbeats with
              | None => buildHeartbeats d params _
              | Some hh => (hh, _)
              end) as [hs w3].
    simpl in Hq. rewrite Hq.
    by destruct (NewHandle _ _ _ _).
Qed.

End Offline.


(** The batch lands in the queue file the parameters name. *)
Example named_queue_file_receives_batch :
  queue (snd (SaveHeartbeats examples_extra.deps_queue_file tt
                (Some [examples.main_go]) "/a.bdb"
                (examples.world_at examples.t0)))
  = {[ "/custom.bdb" := [examples.main_go] ]}.
Proof. reflexivity. Qed.

End offline_extra.

(** ** File statistics *)

Module filestats_props.

Import chain filestats.

Lemma wrap64_add_l a b : wrap64 (wrap64 a + b) = wrap64 (a + b).
Proof.
  unfold wrap64. f_equal.
  replace ((a + 2 ^ 63) mod 2 ^ 64 - 2 ^ 63 + b + 2 ^ 63)
    with ((a + 2 ^ 63) mod 2 ^ 64 + b) by lia.
  rewrite Zplus_mod_idemp_l. f_equal. lia.
Qed.

Lemma wrap64_small x : in_int64 x → wrap64 x = x.
Proof.
  unfold in_int64, min_int64, max_int64, wrap64. intros H.
  change (2 ^ 63) with 9223372036854775808 in *.
  change (2 ^ 64) with 18446744073709551616.
  rewrite Z.mod_small; lia.
Qed.

Lemma Count_app s t sep : Count (s ++ t) sep = Count s sep + Count t sep.
Proof. unfold Count. rewrite count_occ_app. lia. Qed.

Lemma Count_bounds s sep : 0 <= Count s sep <= Z.of_nat (length s).
Proof.
  unfold Count. pose proof (count_occ_bound Byte.byte_eq_dec sep s). lia.
Qed.

Lemma readLoop_spec chunks final ending count :
  readLoop chunks final ending count
  = (wrap64 (count + Count (concat chunks ++ final) lineSep),
     match ending with EOF => None | Failed e => Some e end).
Proof.
  revert count. induction chunks as [|c rest IH]; intros count; simpl.
  - unfold int_add. by destruct ending.
  - rewrite IH. unfold int_add. rewrite wrap64_add_l.
    rewrite <- app_assoc, (Count_app c). f_equal. f_equal. lia.
Qed.

Section Filestats.
Variable d : Deps.

(** X18: on a file that opens, [countLineNumbers] returns the number of
    newline bytes in everything the reads delivered, however the reads cut
    the file into pieces (as an [int]: the number itself when it fits),
    with no error at the end of the file and with the read error
    otherwise. *)
Theorem countLineNumbers_counts_newlines filepath f :
  os_Open d filepath = Ok f →
  let data := concat (chunks f) ++ final f in
  countLineNumbers d filepath
  = (wrap64 (Count data lineSep),
     match ending f with EOF => None | Failed e => Some e end)
  ∧ (Z.of_nat (length data) <= max_int64 →
     wrap64 (Count data lineSep)
     = Z.of_nat (count_occ Byte.byte_eq_dec data Byte.x0a)).
Proof.
  intros Ho. simpl. unfold countLineNumbers. rewrite Ho.
  rewrite readLoop_spec. split; [done|].
  intros Hlen. pose proof (Count_bounds (concat (chunks f) ++ final f) lineSep).
  by rewrite wrap64_small by (unfold in_int64, min_int64; lia).
Qed.

Lemma visit_detect (pre rest : list Heartbeat) h w :
  fst (visit d (pre ++ h :: rest, w) (length pre))
  = pre ++ detect d h :: rest.
Proof.
  unfold visit, detect, counted.
  rewrite list_lookup_middle by reflexivity.
  fold (file_of h).
  destruct (String.eqb _ _); [|done].
  destruct (os_Stat d (file_of h)) as [size|]; [|done].
  destruct (maxFileSizeSupported <? size); [done|].
  destruct (countLineNumbers d (file_of h)) as [lines [e|]]; [done|].
  simpl. by rewrite <- (Nat.add_0_r (length pre)), alter_app_r.
Qed.

Lemma visit_loop rest : ∀ (pre : list Heartbeat) w,
  fst (foldl (visit d) (pre ++ rest, w) (seq (length pre) (length rest)))
  = pre ++ map (detect d) rest.
Proof.
  induction rest as [|h rest IH]; intros pre w; cbn [length seq foldl map];
    [done|].
  pose proof (visit_detect pre rest h w) as Hv.
  destruct (visit d (pre ++ h :: rest, w) (length pre)) as [hh' w'].
  simpl in Hv. subst hh'.
  replace (pre ++ detect d h :: rest) with ((pre ++ [detect d h]) ++ rest)
    by (by rewrite <- app_assoc).
  replace (S (length pre)) with (length (pre ++ [detect d h]))
    by (rewrite length_app; simpl; lia).
  rewrite IH. by rewrite <- app_assoc.
Qed.

Lemma WithDetection_map (next : Handle) hh w :
  ∃ w', WithDetection d next hh w = next (map (detect d) hh) w'.
Proof.
  unfold WithDetection.
  pose proof (visit_loop hh [] w) as Hl. simpl in Hl.
  destruct (foldl (visit d) (hh, w) (seq 0 (length hh))) as [hh' w'].
  simpl in Hl. subst hh'. by exists w'.
Qed.

Lemma detect_counted h size f :
  heartbeat.EntityType h = FileType d →
  os_Stat d (file_of h) = Ok size →
  size <= maxFileSizeSupported →
  os_Open d (file_of h) = Ok f →
  ending f = EOF →
  detect d h
  = with_Lines (Some (wrap64 (Count (concat (chunks f) ++ final f) lineSep))) h.
Proof.
  intros Ht Hs Hle Ho He.
  unfold detect, counted. rewrite Ht, String.eqb_refl, Hs.
  replace (maxFileSizeSupported <? size) with false
    by (symmetry; apply Z.ltb_ge; lia).
  unfold countLineNumbers. by rewrite Ho, readLoop_spec, He.
Qed.

Lemma detect_skipped h :
  heartbeat.EntityType h ≠ FileType d
  ∨ (∃ e, os_Stat d (file_of h) = Err e)
  ∨ (∃ size, os_Stat d (file_of h) = Ok size ∧ maxFileSizeSupported < size)
  ∨ (∃ e, os_Open d (file_of h) = Err e)
  ∨ (∃ f e, os_Open d (file_of h) = Ok f ∧ ending f = Failed e) →
  detect d h = h.
Proof.
  unfold detect, counted, countLineNumbers.
  intros [Ht|[[e Hs]|[(size & Hs & Hgt)|[[e Ho]|(f & e & Ho & He)]]]].
  - by replace (String.eqb (heartbeat.EntityType h) (FileType d)) with false
      by (symmetry; by apply String.eqb_neq).
  - destruct (String.eqb _ _); [|done]. by rewrite Hs.
  - destruct (String.eqb _ _); [|done]. rewrite Hs.
    by replace (maxFileSizeSupported <? size) with true
      by (symmetry; by apply Z.ltb_lt).
  - destruct (String.eqb _ _); [|done].
    destruct (os_Stat d (file_of h)) as [size|]; [|done].
    destruct (maxFileSizeSupported <? size); [done|]. by rewrite Ho.
  - destruct (String.eqb _ _); [|done].
    destruct (os_Stat d (file_of h)) as [size|]; [|done].
    destruct (maxFileSizeSupported <? size); [done|].
    by rewrite Ho, readLoop_spec, He.
Qed.

(** X19: the next handle gets a batch of the same length and in the same
    order, in which each heartbeat is the one that came in, changed at most
    in [Lines]; what the next handle returns on it is returned as it is. *)
Theorem WithDetection_batch (next : Handle) hh w :
  ∃ hh' w',
    WithDetection d next hh w = next hh' w'
    ∧ Forall2 (λ h h', h' = h ∨ ∃ n, h' = with_Lines (Some n) h) hh hh'.
Proof.
  destruct (WithDetection_map next hh w) as [w' Hw].
  exists (map (detect d) hh), w'. split; [done|].
  clear Hw. induction hh as [|h hh IH]; simpl; constructor; [|done].
  unfold detect. destruct (counted d h); eauto.
Qed.

(** X20: a heartbeat of a file that can be inspected, is no larger than
    2 MiB and is read to its end reaches the next handle with the number of
    newline bytes of the file as its [Lines]; the file is [LocalFile] if
    there is one and [Entity] otherwise. *)
Theorem WithDetection_counts_lines (next : Handle) hh w (i : nat) h size f :
  hh !! i = Some h →
  heartbeat.EntityType h = FileType d →
  let filepath :=
    if decide (heartbeat.LocalFile h = "")
    then heartbeat.Entity h else heartbeat.LocalFile h in
  os_Stat d filepath = Ok size →
  size <= maxFileSizeSupported →
  os_Open d filepath = Ok f →
  ending f = EOF →
  ∃ hh' w',
    WithDetection d next hh w = next hh' w'
    ∧ hh' !! i
      = Some (with_Lines
                (Some (wrap64 (Count (concat (chunks f) ++ final f) lineSep)))
                h).
Proof.
  intros Hi Ht filepath Hs Hle Ho He.
  assert (Hf : filepath = file_of h).
  { subst filepath. unfold file_of, config.is_empty.
    destruct (String.eqb_spec (heartbeat.LocalFile h) ""); case_decide; done. }
  rewrite Hf in Hs, Ho.
  destruct (WithDetection_map next hh w) as [w' Hw].
  exists (map (detect d) hh), w'. split; [done|].
  rewrite list_lookup_fmap, Hi. simpl. f_equal.
  by eapply detect_counted.
Qed.

(** X21: a heartbeat reaches the next handle as it came in, with the
    [Lines] it had, when it is not of a file, when the file cannot be
    inspected or opened, when it is larger than 2 MiB, or when reading it
    fails. *)
Theorem WithDetection_leaves_alone (next : Handle) hh w (i : nat) h :
  hh !! i = Some h →
  heartbeat.EntityType h ≠ FileType d
  ∨ (∃ e, os_Stat d (file_of h) = Err e)
  ∨ (∃ size, os_Stat d (file_of h) = Ok size ∧ maxFileSizeSupported < size)
  ∨ (∃ e, os_Open d (file_of h) = Err e)
  ∨ (∃ f e, os_Open d (file_of h) = Ok f ∧ ending f = Failed e) →
  ∃ hh' w',
    WithDetection d next hh w = next hh' w' ∧ hh' !! i = Some h.
Proof.
  intros Hi Hc.
  destruct (WithDetection_map next hh w) as [w' Hw].
  exists (map (detect d) hh), w'. split; [done|].
  rewrite list_lookup_fmap, Hi. simpl. f_equal. by apply detect_skipped.
Qed.

End Filestats.

Lemma countLineNumbers_counts_newlines_witness :
  countLineNumbers examples_extra.files "/src/main.go" = (2, None).
Proof.
  destruct (countLineNumbers_counts_newlines examples_extra.files
              "/src/main.go" examples_extra.main_go_reads eq_refl) as [H _].
  exact H.
Defined.

Lemma WithDetection_counts_lines_witness :
  ∃ hh' w',
    WithDetection examples_extra.files examples.succeeding
      [examples.main_go] (examples.world_at examples.t0)
    = examples.succeeding hh' w'
    ∧ hh' !! 0%nat = Some (with_Lines (Some 2) examples.main_go).
Proof.
  exact (WithDetection_counts_lines examples_extra.files examples.succeeding
           [examples.main_go] (examples.world_at examples.t0) 0
           examples.main_go 5 examples_extra.main_go_reads
           eq_refl eq_refl eq_refl
           ltac:(unfold maxFileSizeSupported; lia) eq_refl eq_refl).
Defined.

Lemma WithDetection_leaves_alone_witness :
  ∃ hh' w',
    WithDetection examples_extra.files examples.succeeding
      [examples.main_go; examples_extra.big_bin]
      (examples.world_at examples.t0)
    = examples.succeeding hh' w'
    ∧ hh' !! 1%nat = Some examples_extra.big_bin.
Proof.
  apply (WithDetection_leaves_alone examples_extra.files examples.succeeding
           [examples.main_go; examples_extra.big_bin]
           (examples.world_at examples.t0) 1 examples_extra.big_bin eq_refl).
  right. right. left. exists 3000000. split; [reflexivity|].
  unfold maxFileSizeSupported. lia.
Defined.

End filestats_props.

(** ** Reading the configuration and dispatching the commands *)

Module run_props.

Import legacy config_read legacy_run.

Section ReadInConfig.
Context {Viper : Type} (ops : ViperOps Viper).

(** X22: [ReadInConfig] fails exactly when the file is there and cannot be
    merged; a file that is not there is not an error, and then nothing is
    merged: [v] only has its config type and file set. *)
Theorem ReadInConfig_fails_iff v configFilePath w :
  let v' := SetConfigFile ops configFilePath (SetConfigType ops "ini" v) in
  (is_Some (snd (fst (ReadInConfig ops v configFilePath w)))
   ↔ os_Stat_IsNotExist ops configFilePath = false
     ∧ is_Some (snd (MergeInConfig ops v')))
  ∧ (os_Stat_IsNotExist ops configFilePath = true →
     fst (ReadInConfig ops v configFilePath w) = (v', None)).
Proof.
  simpl. unfold ReadInConfig.
  destruct (os_Stat_IsNotExist ops configFilePath); simpl.
  - split; [|done]. split; [by intros [? ?]|]. by intros [? _].
  - split; [|done].
    destruct (MergeInConfig ops _) as [v' [e|]]; simpl.
    + split; eauto.
    + split; [by intros [? ?]|]. by intros [_ [? ?]].
Qed.

End ReadInConfig.

Section Run.
Context {Viper : Type} (code : ExitCodes) (api : Api Viper)
        (sys : config.Os Viper) (ops : ViperOps Viper) (cli : Cli Viper).

Lemma SetupLogging_events v m :
  events (proc (snd (SetupLogging cli v m))) = events (proc m).
Proof.
  unfold SetupLogging.
  destruct (logfile_LoadParams cli v) as [lp|e].
  - destruct (ToStdout lp); simpl; [done|].
    destruct (os_OpenFile cli _ _) as [[sink|e] w']; simpl; [done|].
    by destruct (log_Fatalf cli _ _).
  - simpl. by destruct (log_Fatalf cli _ _).
Qed.

Lemma loadConfig_events v m :
  events (proc (snd (loadConfig sys ops v m))) = events (proc m).
Proof.
  unfold loadConfig.
  destruct (config.FilePath sys v); simpl;
    by destruct (ReadInConfig ops v _ _).
Qed.

Lemma run_invoked verbose cmd v m :
  invoked (proc (snd (run code api verbose cmd v m)))
  = invoked (proc m) ++ [cmd_name cmd].
Proof.
  unfold run, on_proc, RunCmd.
  pose proof (legacy_props.runCmd_invoked code api v verbose cmd (proc m)) as H.
  by destruct (runCmd code api v verbose cmd (proc m)) as [[c|c] p].
Qed.

Lemma runWithOfflineSync_invoked verbose cmd v m :
  invoked (proc (snd (runWithOfflineSync code api cli verbose cmd v m)))
  = invoked (proc m) ++ [cmd_name cmd]
  ∨ invoked (proc (snd (runWithOfflineSync code api cli verbose cmd v m)))
    = invoked (proc m) ++ [cmd_name cmd; cmd_name (offlinesync_Run cli)].
Proof.
  unfold runWithOfflineSync, on_proc, RunCmdWithOfflineSync.
  pose proof (legacy_props.runCmd_invoked code api v verbose cmd (proc m)) as H.
  destruct (runCmd code api v verbose cmd (proc m)) as [[c|c] p]; simpl in *.
  - destruct (negb (c =? Success code)); simpl; [by left|].
    pose proof (legacy_props.runCmd_invoked code api v verbose
                  (offlinesync_Run cli) p) as H2.
    right.
    destruct (runCmd code api v verbose (offlinesync_Run cli) p) as [[c'|c'] p'];
      simpl in *; by rewrite H2, H, <- app_assoc.
  - by left.
Qed.

Lemma invoked_on_world f m : invoked (proc (on_world f m)) = invoked (proc m).
Proof. done. Qed.

(** The shapes of what one call of [Run] may invoke. *)
Lemma commands_invoked v verbose m :
  ∃ l, invoked (proc (snd (commands code api ops cli v verbose m)))
       = invoked (proc m) ++ l
       ∧ ((length l <= 1)%nat
          ∨ l = [cmd_name (heartbeatcmd_Run cli);
                 cmd_name (offlinesync_Run cli)]).
Proof.
  unfold commands.
  repeat match goal with
  | |- context [if ?b then _ else _] =>
      destruct b;
      [ try (rewrite run_invoked, invoked_on_world; eexists; split;
             [reflexivity|left; simpl; lia]) |]
  end.
  - destruct (runWithOfflineSync_invoked verbose (heartbeatcmd_Run cli) v
                (on_world (log.Debugln "command: heartbeat") m)) as [H|H];
      rewrite H, invoked_on_world; eexists; split; try reflexivity.
    + left. simpl. lia.
    + by right.
  - exists []. rewrite app_nil_r. split; [done|]. left. simpl. lia.
Qed.

(** X23: whatever the parameters and the machine, one call of [Run]
    invokes no command, or one command, or the heartbeat command followed
    by the offline sync, and nothing else. *)
Theorem Run_invokes_at_most v m :
  ∃ l, invoked (proc (snd (Run code api sys ops cli v m)))
       = invoked (proc m) ++ l
       ∧ ((length l <= 1)%nat
          ∨ l = [cmd_name (heartbeatcmd_Run cli);
                 cmd_name (offlinesync_Run cli)]).
Proof.
  unfold Run.
  pose proof (loadConfig_events v m) as Hc.
  destruct (loadConfig sys ops v m) as [[v' err] m1]. simpl in Hc.
  assert (Hnone : ∀ m', events (proc m') = events (proc m) →
            ∃ l, invoked (proc m') = invoked (proc m) ++ l
                 ∧ ((length l <= 1)%nat
                    ∨ l = [cmd_name (heartbeatcmd_Run cli);
                           cmd_name (offlinesync_Run cli)])).
  { intros m' He. exists []. rewrite app_nil_r. unfold invoked. rewrite He.
    split; [done|]. left. simpl. lia. }
  destruct err as [err|].
  - pose proof (SetupLogging_events v'
        (Fprintf_Stderr ("failed to load configuration file: " +:+ err) m1))
      as Hs.
    destruct (SetupLogging cli v' _) as [[lp|c] m2]; simpl in Hs.
    + destruct (IsSet ops v' "entity").
      * rewrite run_invoked, invoked_on_world.
        assert (Hi : invoked (proc m2) = invoked (proc m))
          by (unfold invoked; simpl in *; congruence).
        rewrite Hi. eexists. split; [reflexivity|]. left. simpl. lia.
      * apply Hnone. simpl in *. congruence.
    + apply Hnone. simpl in *. congruence.
  - pose proof (SetupLogging_events v' m1) as Hs.
    destruct (SetupLogging cli v' m1) as [[lp|c] m2]; simpl in Hs.
    + destruct (GetBool ops v' "useragent").
      * destruct (negb _); apply Hnone; simpl in *; congruence.
      * destruct (commands_invoked v' (Verbose lp) m2) as (l & Hl & Hshape).
        exists l. split; [|done]. rewrite Hl. unfold invoked.
        simpl in *. congruence.
    + apply Hnone. simpl in *. congruence.
Qed.

(** X24: when the config file cannot be read and logging is set up, [Run]
    ends the process with [ErrConfigFileParse] without invoking a command,
    unless an entity is given: then the only command invoked is the one
    that saves the heartbeat without sending, with verbose mode off, and
    the process ends as [RunCmd] ends it. *)
Theorem Run_config_failure v m v' err m1 lp m2 :
  loadConfig sys ops v m = ((v', Some err), m1) →
  SetupLogging cli v'
    (Fprintf_Stderr ("failed to load configuration file: " +:+ err) m1)
  = (Return lp, m2) →
  let m3 :=
    on_world (log.Errorf ("failed to load configuration file: " +:+ err)) m2 in
  Run code api sys ops cli v m
  = (if IsSet ops v' "entity"
     then on_proc (RunCmd code api v' false
                     (heartbeatcmd_RunWithoutSending cli)) m3
     else (ErrConfigFileParse code, m3))
  ∧ invoked (proc (snd (Run code api sys ops cli v m)))
    = invoked (proc m)
      ++ (if IsSet ops v' "entity"
          then [cmd_name (heartbeatcmd_RunWithoutSending cli)] else []).
Proof.
  intros Hc Hs. simpl.
  pose proof (loadConfig_events v m) as Hce. rewrite Hc in Hce.
  pose proof (SetupLogging_events v'
      (Fprintf_Stderr ("failed to load configuration file: " +:+ err) m1))
    as Hse. rewrite Hs in Hse. simpl in Hce, Hse.
  unfold Run. rewrite Hc, Hs.
  destruct (IsSet ops v' "entity").
  - split; [done|].
    rewrite run_invoked, invoked_on_world.
    assert (Hi : invoked (proc m2) = invoked (proc m))
      by (unfold invoked; congruence).
    by rewrite Hi.
  - split; [done|]. simpl. rewrite app_nil_r.
    unfold invoked, with_world. simpl. congruence.
Qed.

(** X25: with the config read and logging set up, the useragent parameter
    comes before every command: the user agent is printed, of the plugin if
    one is named, no command is invoked whatever other parameters are set,
    and the process ends with [Success]. *)
Theorem Run_useragent_first v m v' m1 lp m2 :
  loadConfig sys ops v m = ((v', None), m1) →
  SetupLogging cli v' m1 = (Return lp, m2) →
  GetBool ops v' "useragent" = true →
  let plugin := config.vipertools_GetString sys v' "plugin" in
  let final := snd (Run code api sys ops cli v m) in
  fst (Run code api sys ops cli v m) = Success code
  ∧ invoked (proc final) = invoked (proc m)
  ∧ stdout final
    = stdout m2
      ++ [if decide (plugin = "") then heartbeat_UserAgentUnknownPlugin cli
          else heartbeat_UserAgent cli plugin].
Proof.
  intros Hc Hs Hu. simpl.
  pose proof (loadConfig_events v m) as Hce. rewrite Hc in Hce.
  pose proof (SetupLogging_events v' m1) as Hse. rewrite Hs in Hse.
  simpl in Hce, Hse.
  unfold Run. rewrite Hc, Hs, Hu. unfold config.is_empty.
  destruct (String.eqb_spec (config.vipertools_GetString sys v' "plugin") "");
    case_decide; try done; simpl;
    (split; [done|split; [|done]]); unfold invoked, with_world; simpl;
    congruence.
Qed.

(** X26: with the config read and logging set up, when none of the nine
    parameters is given [Run] invokes no command, logs a warning that names
    them, prints the help text and ends the process with [ErrGeneric]. *)
Theorem Run_no_parameter v m v' m1 lp m2 :
  loadConfig sys ops v m = ((v', None), m1) →
  SetupLogging cli v' m1 = (Return lp, m2) →
  (∀ k, k ∈ ["useragent"; "version"; "today"; "offline-count"] →
        GetBool ops v' k = false) →
  (∀ k, k ∈ ["config-read"; "config-write"; "today-goal"; "entity";
             "sync-offline-activity"] →
        IsSet ops v' k = false) →
  let final := snd (Run code api sys ops cli v m) in
  fst (Run code api sys ops cli v m) = ErrGeneric code
  ∧ invoked (proc final) = invoked (proc m)
  ∧ stdout final = stdout m2 ++ [cobra_Help cli]
  ∧ world (proc final)
    = log.Warnf
        "one of the following parameters has to be provided: --config-read, --config-write, --entity, --offline-count, --sync-offline-activity, --today, --today-goal, --useragent, --version"
        (world (proc m2)).
Proof.
  intros Hc Hs Hb Hi. simpl.
  pose proof (loadConfig_events v m) as Hce. rewrite Hc in Hce.
  pose proof (SetupLogging_events v' m1) as Hse. rewrite Hs in Hse.
  simpl in Hce, Hse.
  unfold Run, commands. rewrite Hc, Hs.
  rewrite !Hb by set_solver. rewrite !Hi by set_solver. simpl.
  repeat split. unfold invoked, with_world. simpl. congruence.
Qed.

End Run.

Lemma Run_config_failure_witness :
  invoked (proc (snd (Run examples.codes examples_extra.api_cli
                        examples_extra.sys_cli (examples_extra.ops true)
                        examples_extra.cli ["entity"]
                        examples_extra.machine)))
  = ["heartbeatcmd.RunWithoutSending"].
Proof.
  destruct (Run_config_failure examples.codes examples_extra.api_cli
              examples_extra.sys_cli (examples_extra.ops true)
              examples_extra.cli ["entity"] examples_extra.machine
              _ _ _ _ _ eq_refl eq_refl) as [_ H].
  exact H.
Defined.

Lemma Run_useragent_first_witness :
  fst (Run examples.codes examples_extra.api_cli examples_extra.sys_cli
         (examples_extra.ops false) examples_extra.cli
         ["useragent"; "entity"] examples_extra.machine) = 0
  ∧ stdout (snd (Run examples.codes examples_extra.api_cli
                   examples_extra.sys_cli (examples_extra.ops false)
                   examples_extra.cli ["useragent"; "entity"]
                   examples_extra.machine))
    = ["wakatime/1.0 Unknown/0"].
Proof.
  destruct (Run_useragent_first examples.codes examples_extra.api_cli
              examples_extra.sys_cli (examples_extra.ops false)
              examples_extra.cli ["useragent"; "entity"]
              examples_extra.machine _ _ _ _ eq_refl eq_refl eq_refl)
    as (H1 & _ & H3).
  split; [exact H1|exact H3].
Defined.

Lemma Run_no_parameter_witness :
  fst (Run examples.codes examples_extra.api_cli examples_extra.sys_cli
         (examples_extra.ops false) examples_extra.cli []
         examples_extra.machine) = 1
  ∧ stdout (snd (Run examples.codes examples_extra.api_cli
                   examples_extra.sys_cli (examples_extra.ops false)
                   examples_extra.cli [] examples_extra.machine))
    = ["usage: wakatime-cli"].
Proof.
  destruct (Run_no_parameter examples.codes examples_extra.api_cli
              examples_extra.sys_cli (examples_extra.ops false)
              examples_extra.cli [] examples_extra.machine _ _ _ _
              eq_refl eq_refl (λ _ _, eq_refl) (λ _ _, eq_refl))
    as (H1 & _ & H3 & _).
  split; [exact H1|exact H3].
Defined.

End run_props.
